(** * Weather dashboard: demo synthesis, forecast normalisation, daily grouping

    A shallow embedding of [task1.py] (class [WeatherDashboard]) and the
    properties its specification states about it.

    Modelling conventions.
    - Python floats are idealised as real numbers ([R]); [np.sin] is [sin],
      [np.pi] is [PI].  Where binary rounding decides a property (the mean
      of a daily group) the computation is given over binary64 as well.
    - A naive [datetime] is the number of microseconds since
      1970-01-01T00:00:00 on the local wall clock.  The local zone is an
      oracle [zone] giving the offset from UTC in force at each instant, so
      daylight-saving transitions are zones like any other; [timestamp] and
      [fromtimestamp] follow the standard library's conversions, the latter
      failing outside the years 1 to 9999.  A clock reading lies at least
      ten days inside that range, so that the 117 hours added to it stay in
      range.
    - JSON-shaped Python values (nested dicts and lists) are the tree type
      [json]; a dict is an association list in insertion order.
    - The ambient effects (wall clock, [np.random], HTTP) are oracles indexed
      by how often they have been consulted; the mutable part is [World]. *)

From Stdlib Require Import PrimFloat.
From Stdlib Require Import Reals ZArith List String Bool Lia Lra Sorted Permutation.
Import ListNotations.

Local Open Scope string_scope.

(** ** Python numerics on floats *)

(** [int(x)] for a float [x]: truncation toward zero. *)
Definition py_int (x : R) : Z :=
  if Rle_dec 0 x then Int_part x else (- Int_part (- x))%Z.

(** [round(x)]: nearest integer, ties to the even neighbour. *)
Definition py_round (x : R) : Z :=
  let f := Int_part x in
  let frac := (x - IZR f)%R in
  if Rlt_dec frac (1 / 2) then f
  else if Rlt_dec (1 / 2) frac then (f + 1)%Z
  else if Z.even f then f else (f + 1)%Z.

(** [round(x, 1)]: nearest multiple of one tenth. *)
Definition round1 (x : R) : R := (IZR (py_round (x * 10)) / 10)%R.

(** ** Exceptions and results *)

Inductive NetFailure : Type :=
| ConnectionFailed            (* requests.get raised *)
| BadStatus (code : Z)        (* raise_for_status raised HTTPError *)
| BadBody.                    (* response.json() raised JSONDecodeError *)

Inductive Exception : Type :=
| KeyError (key : string)
| IndexError
| TypeError
| DateRangeError  (* ValueError, OverflowError or OSError of fromtimestamp *)
| RequestException (cause : NetFailure).

Inductive result (A : Type) : Type :=
| Return (a : A)
| Raise (e : Exception).
Arguments Return {A} a.
Arguments Raise {A} e.

Definition bind {A B : Type} (m : result A) (k : A -> result B) : result B :=
  match m with
  | Return a => k a
  | Raise e => Raise e
  end.

Notation "x <- m ;; k" := (bind m (fun x => k))
  (at level 61, m at next level, right associativity).


Definition failed {A : Type} (r : result A) : bool :=
  match r with
  | Raise _ => true
  | Return _ => false
  end.

(** ** JSON-shaped values *)

#[local] Set Warnings "-register-all".

Inductive json : Type :=
| JNull
| JBool (b : bool)
| JInt (z : Z)
| JFloat (r : R)
| JStr (s : string)
| JList (l : list json)
| JDict (d : list (string * json))
| JNonFinite.  (* the floats NaN, Infinity and -Infinity *)

Fixpoint assoc (k : string) (d : list (string * json)) : option json :=
  match d with
  | [] => None
  | (k', v) :: rest => if String.eqb k k' then Some v else assoc k rest
  end.

(** Python truthiness, as used by [if not x]. *)
Definition truthy (j : json) : bool :=
  match j with
  | JNull => false
  | JBool b => b
  | JInt z => negb (z =? 0)%Z
  | JFloat r => if Req_dec_T r 0 then false else true
  | JStr s => negb (String.eqb s "")
  | JList l => match l with [] => false | _ => true end
  | JDict d => match d with [] => false | _ => true end
  | JNonFinite => true
  end.

(** [j[k]] for a string key [k]. *)
Definition getitem (j : json) (k : string) : result json :=
  match j with
  | JDict d => match assoc k d with
               | Some v => Return v
               | None => Raise (KeyError k)
               end
  | _ => Raise TypeError
  end.

(** [j[0]]. *)
Definition getitem0 (j : json) : result json :=
  match j with
  | JList l => match l with
               | x :: _ => Return x
               | [] => Raise IndexError
               end
  | JStr s => match s with
              | String c _ => Return (JStr (String c EmptyString))
              | EmptyString => Raise IndexError
              end
  | JDict _ => Raise (KeyError "0")
  | _ => Raise TypeError
  end.

Fixpoint chars (s : string) : list json :=
  match s with
  | EmptyString => []
  | String c rest => JStr (String c EmptyString) :: chars rest
  end.

(** The items a [for item in j] loop visits. *)
Definition iterate (j : json) : result (list json) :=
  match j with
  | JList l => Return l
  | JDict d => Return (map (fun kv => JStr (fst kv)) d)
  | JStr s => Return (chars s)
  | _ => Raise TypeError
  end.

(** ** Dates and times *)

Definition datetime := Z.

(** An offset from UTC in seconds east; Python keeps every such offset
    strictly within one day. *)
Record Offset : Type := mkOffset {
  seconds_east : Z;
  offset_ok : (Z.abs seconds_east <? 86400)%Z = true
}.

(** The naive seconds of 0001-01-01T00:00:00 and of 9999-12-31T23:59:59. *)
Definition MIN_SECONDS : Z := -62135596800.
Definition MAX_SECONDS : Z := 253402300799.

Definition in_datetime_range (seconds : Z) : bool :=
  ((MIN_SECONDS <=? seconds) && (seconds <=? MAX_SECONDS))%Z.

(** What [datetime.now()] returns: a naive datetime at least ten days
    inside the supported range. *)
Record Reading : Type := mkReading {
  naive_us : datetime;
  reading_ok :
    (in_datetime_range (naive_us / 1000000 - 864000)
     && in_datetime_range (naive_us / 1000000 + 864000))%bool%Z = true
}.

Definition timedelta_hours (h : Z) : Z := (h * 3600 * 1000000)%Z.

(** [d.date()], as the day number counted from 1970-01-01; dates compare as
    their day numbers do. *)
Definition date_of (d : datetime) : Z := (d / 86400000000)%Z.

(** ** Demo synthesis *)

Inductive Condition : Type := Clear | Clouds | Rain.

Definition condition_name (c : Condition) : string :=
  match c with
  | Clear => "Clear"
  | Clouds => "Clouds"
  | Rain => "Rain"
  end.

(** The four random draws one loop iteration makes, in program order:
    [uniform(-2, 2)], [uniform(-5, 5)], [random()], [choice(...)]. *)
Record Draws : Type := mkDraws {
  temp_noise : R;
  humidity_noise : R;
  wind_random : R;
  weather_choice : Condition
}.

Definition draws_in_range (d : Draws) : Prop :=
  (-2 <= temp_noise d < 2)%R /\
  (-5 <= humidity_noise d < 5)%R /\
  (0 <= wind_random d < 1)%R.

(** Mutable state of one run: the adapter's flag, how often each oracle has
    been consulted, and what has been printed and saved. *)
Record World : Type := mkWorld {
  use_demo : bool;
  now_reads : nat;
  rng_used : nat;
  requests_sent : nat;
  stdout : list string;
  saved : list string
}.

Definition set_use_demo (b : bool) (w : World) : World :=
  mkWorld b (now_reads w) (rng_used w) (requests_sent w) (stdout w) (saved w).

Definition print (line : string) (w : World) : World :=
  mkWorld (use_demo w) (now_reads w) (rng_used w) (requests_sent w)
          (line :: stdout w) (saved w).

Inductive Response : Type :=
| NoResponse
| Http (status : Z) (body : option json).

(** One row of the DataFrame [process_forecast_data] builds. *)
Record Row : Type := mkRow {
  row_datetime : datetime;
  temperature : json;
  feels_like : json;
  humidity : json;
  pressure : json;
  wind_speed : json;
  weather : json;
  description : json
}.

Definition DataFrame := list Row.

(** Rows of the table lines 243-246 build, with exactly these four columns. *)
Record DailyStats : Type := mkDaily {
  ds_date : Z;
  min_temp : R;
  max_temp : R;
  mean_temp : R
}.

(** ** Daily grouping (lines 242-246) *)

(** Numeric reading of a cell of the temperature column. *)
Definition as_float (j : json) : option R :=
  match j with
  | JInt z => Some (IZR z)
  | JFloat r => Some r
  | _ => None
  end.

(** The two columns the grouping reads: [date] (derived from [datetime]) and
    [temperature].  [None] when some temperature is not a number; what
    pandas does with such a column is outside the model. *)
Fixpoint date_temperature (df : DataFrame) : option (list (Z * R)) :=
  match df with
  | [] => Some []
  | r :: rest =>
      match as_float (temperature r), date_temperature rest with
      | Some t, Some col => Some ((date_of (row_datetime r), t) :: col)
      | _, _ => None
      end
  end.

(** Group keys: each key once, ascending. *)
Fixpoint insert_key (k : Z) (ks : list Z) : list Z :=
  match ks with
  | [] => [k]
  | k' :: rest =>
      if (k <? k')%Z then k :: ks
      else if (k =? k')%Z then ks
      else k' :: insert_key k rest
  end.

Definition group_keys (keys : list Z) : list Z := fold_right insert_key [] keys.

(** The values of one group, in row order. *)
Definition group_values (k : Z) (kvs : list (Z * R)) : list R :=
  map snd (filter (fun kv => (fst kv =? k)%Z) kvs).

Definition col_min (l : list R) : R :=
  match l with
  | [] => 0%R
  | x :: xs => fold_left Rmin xs x
  end.

Definition col_max (l : list R) : R :=
  match l with
  | [] => 0%R
  | x :: xs => fold_left Rmax xs x
  end.

(** The sum and the mean of a group in exact arithmetic; the binary64
    computation is [f64_mean] below. *)
Definition col_sum (l : list R) : R := fold_right Rplus 0%R l.

Definition col_mean (l : list R) : R := (col_sum l / INR (List.length l))%R.

(** [groupby(key).agg(['min', 'max', 'mean']).reset_index()]. *)
Definition groupby_agg (kvs : list (Z * R)) : list DailyStats :=
  map (fun k => let g := group_values k kvs in
                mkDaily k (col_min g) (col_max g) (col_mean g))
      (group_keys (map fst kvs)).

(** The specification's [aggregateDaily]. *)
Definition daily_stats (df : DataFrame) : option (list DailyStats) :=
  option_map groupby_agg (date_temperature df).

(** Grouping a daily table again by its date column, on one of its value
    columns. *)
Definition regroup (col : DailyStats -> R) (t : list DailyStats) : list DailyStats :=
  groupby_agg (map (fun s => (ds_date s, col s)) t).

(** ** Daily grouping over binary64

    The same grouping on a temperature column of binary64 values: [min] and
    [max] by comparison, and the mean as pandas accumulates it, a sum with a
    running compensation divided by the number of values.  The plain
    left-to-right sum is given beside it. *)

Definition f64_min (l : list float) : float :=
  match l with
  | [] => nan
  | x :: xs => fold_left (fun a b => if PrimFloat.ltb b a then b else a) xs x
  end.

Definition f64_max (l : list float) : float :=
  match l with
  | [] => nan
  | x :: xs => fold_left (fun a b => if PrimFloat.ltb a b then b else a) xs x
  end.

Definition compensated_step (acc : float * float) (v : float) : float * float :=
  let '(sumx, compensation) := acc in
  let y := PrimFloat.sub v compensation in
  let t := PrimFloat.add sumx y in
  (t, PrimFloat.sub (PrimFloat.sub t sumx) y).

Definition f64_sum (l : list float) : float :=
  fst (fold_left compensated_step l (0%float, 0%float)).

Definition f64_plain_sum (l : list float) : float :=
  fold_left PrimFloat.add l 0%float.

(** The count of a group as a float (exact for every count that occurs). *)
Definition f64_count (n : nat) : float :=
  Nat.iter n (fun c => PrimFloat.add c 1%float) 0%float.

Definition f64_mean (l : list float) : float :=
  PrimFloat.div (f64_sum l) (f64_count (List.length l)).

Definition f64_plain_mean (l : list float) : float :=
  PrimFloat.div (f64_plain_sum l) (f64_count (List.length l)).

Record DailyStats64 : Type := mkDaily64 {
  ds64_date : Z;
  min_temp64 : float;
  max_temp64 : float;
  mean_temp64 : float
}.

Definition group_values64 (k : Z) (kvs : list (Z * float)) : list float :=
  map snd (filter (fun kv => (fst kv =? k)%Z) kvs).

Definition groupby_agg64 (kvs : list (Z * float)) : list DailyStats64 :=
  map (fun k => let g := group_values64 k kvs in
                mkDaily64 k (f64_min g) (f64_max g) (f64_mean g))
      (group_keys (map fst kvs)).

(** Three readings of 11.3 degrees on 2024-01-01. *)
Definition eleven_point_three : float := 0x1.699999999999ap+3%float.

Definition three_equal_readings : list (Z * float) :=
  [(19723%Z, eleven_point_three); (19723%Z, eleven_point_three);
   (19723%Z, eleven_point_three)].

(** ** Reading a forecast back *)

Definition forecast_points (forecast : json) : list json :=
  match getitem forecast "list" with
  | Return (JList l) => l
  | _ => []
  end.

Definition int_field (r : result json) : option Z :=
  match r with
  | Return (JInt z) => Some z
  | _ => None
  end.


Definition point_humidity (p : json) : option Z :=
  int_field (m <- getitem p "main" ;; getitem m "humidity").

Definition point_pressure (p : json) : option Z :=
  int_field (m <- getitem p "main" ;; getitem m "pressure").

(** ** Shape of a forecast point *)

Definition is_dict (j : json) : bool :=
  match j with JDict _ => true | _ => false end.

Definition is_number (j : json) : bool :=
  match j with
  | JInt _ | JFloat _ | JBool _ | JNonFinite => true
  | _ => false
  end.

Definition is_conditions (j : json) : bool :=
  match j with
  | JList [] => true
  | JList (x :: _) => is_dict x
  | _ => false
  end.

Definition if_present (check : json -> bool) (o : option json) : bool :=
  match o with
  | Some x => check x
  | None => true
  end.

(** Whatever of the expected structure is present has the expected type: the
    point is a dict, [dt] a number, [main] and [wind] dicts, [weather] a list
    whose first element is a dict. *)
Definition typed_point (item : json) : bool :=
  match item with
  | JDict d =>
      if_present is_number (assoc "dt" d)
      && if_present is_dict (assoc "main" d)
      && if_present is_dict (assoc "wind" d)
      && if_present is_conditions (assoc "weather" d)
  | _ => false
  end.

Definition has (r : result json) : bool :=
  match r with Return _ => true | Raise _ => false end.

(** Every expected field is there, the first element of the conditions list
    included. *)
Definition complete_point (item : json) : bool :=
  has (getitem item "dt")
  && has (m <- getitem item "main" ;; getitem m "temp")
  && has (m <- getitem item "main" ;; getitem m "feels_like")
  && has (m <- getitem item "main" ;; getitem m "humidity")
  && has (m <- getitem item "main" ;; getitem m "pressure")
  && has (x <- getitem item "wind" ;; getitem x "speed")
  && has (ws <- getitem item "weather" ;; getitem0 ws)
  && has (ws <- getitem item "weather" ;; c <- getitem0 ws ;; getitem c "main")
  && has (ws <- getitem item "weather" ;; c <- getitem0 ws ;;
          getitem c "description").

Definition within (lo hi : Z) (field : json -> option Z) (p : json) : bool :=
  match field p with
  | Some v => ((lo <=? v) && (v <=? hi))%Z
  | None => false
  end.

(** The float expressions of lines 57 and 58, before conversion to an
    integer. *)
Definition humidity_signal (i : nat) (noise : R) : R :=
  (60 + 20 * sin (INR i * PI / 12) + noise)%R.

Definition pressure_signal (i : nat) : R :=
  (1010 + 10 * sin (INR i * PI / 20))%R.

Section WeatherDashboard.

(** The environment of a run. *)
Variable zone : Z -> Offset.                 (* offset in force at an epoch second *)
Variable wall_clock : nat -> Reading.        (* n-th value of datetime.now() *)
Variable rng : nat -> Draws.                 (* n-th bundle of random draws *)
Variable network : nat -> string -> Response. (* n-th request, by endpoint *)
Variable draw_panels : json -> option DataFrame -> result unit. (* lines 150-262 *)

Definition utcoffset (u : Z) : Z := seconds_east (zone u).

Definition clock (n : nat) : datetime := naive_us (wall_clock n).

(** [time.localtime(u)], as naive seconds. *)
Definition local (u : Z) : Z := (u + utcoffset u)%Z.

(** The standard library's [local_to_seconds] with [fold = 0]: the epoch
    second [u] whose local time is the naive second [t].  It tries the offset
    found at [t] and the one found a day earlier; a time skipped by a
    transition is resolved with the later of the two candidates. *)
Definition mktime (t : Z) : Z :=
  let a := (local t - t)%Z in
  let u1 := (t - a)%Z in
  let t1 := local u1 in
  let second_try (b : Z) : Z :=
    let u2 := (t - b)%Z in
    if (local u2 =? t)%Z then u2
    else if (t1 =? t)%Z then u1
    else Z.max u1 u2 in
  if (t1 =? t)%Z then
    let u2 := (u1 - 86400)%Z in
    let b := (local u2 - u2)%Z in
    if (a =? b)%Z then u1 else second_try b
  else second_try (t1 - u1)%Z.

(** [d.timestamp()] of a naive datetime: seconds since the epoch, a float. *)
Definition timestamp (d : datetime) : R :=
  (IZR (mktime (d / 1000000)) + IZR (d mod 1000000) / 1000000)%R.

(** The naive datetime of an instant given in microseconds since the epoch;
    fails when it lies outside the years 1 to 9999. *)
Definition from_epoch_us (us : Z) : result datetime :=
  let seconds := local (us / 1000000) in
  if in_datetime_range seconds
  then Return (seconds * 1000000 + us mod 1000000)%Z
  else Raise DateRangeError.

(** [datetime.fromtimestamp(x)]; a float is rounded to the nearest
    microsecond, ties to even. *)
Definition fromtimestamp (x : json) : result datetime :=
  match x with
  | JInt s => from_epoch_us (s * 1000000)
  | JBool b => from_epoch_us (Z.b2z b * 1000000)
  | JFloat r => from_epoch_us (py_round (r * 1000000))
  | JNonFinite => Raise DateRangeError
  | _ => Raise TypeError
  end.

(** The zone keeps the offset [off] at every instant from [lo] to [hi]. *)
Definition steady (off lo hi : Z) : Prop :=
  forall u, (lo <= u <= hi)%Z -> utcoffset u = off.



(** *** [generate_demo_data] *)

Definition demo_current : json :=
  JDict [("main", JDict [("temp", JFloat 18.5);
                         ("feels_like", JFloat 17.2);
                         ("humidity", JInt 65);
                         ("pressure", JInt 1013)]);
         ("wind", JDict [("speed", JFloat 4.5)]);
         ("weather", JList [JDict [("description", JStr "partly cloudy");
                                   ("main", JStr "Clouds")]])].

(** The loop variable [time_point] of iteration [i]. *)
Definition time_point (base_time : datetime) (i : nat) : datetime :=
  (base_time + timedelta_hours (Z.of_nat i * 3))%Z.

(** The dict appended in iteration [i] of the loop. *)
Definition demo_point (base_time : datetime) (i : nat) (d : Draws) : json :=
  let temp := (18 + 5 * sin (INR i * PI / 8) + temp_noise d)%R in
  JDict [("dt", JInt (py_int (timestamp (time_point base_time i))));
         ("main",
          JDict [("temp", JFloat (round1 temp));
                 ("feels_like", JFloat (round1 (temp - 1.5)));
                 ("humidity",
                  JInt (py_int (60 + 20 * sin (INR i * PI / 12)
                                + humidity_noise d)));
                 ("pressure",
                  JInt (py_int (1010 + 10 * sin (INR i * PI / 20))))]);
         ("wind", JDict [("speed", JFloat (round1 (3 + 3 * wind_random d)))]);
         ("weather",
          JList [JDict [("main", JStr (condition_name (weather_choice d)));
                        ("description", JStr "demo weather")]])].

Definition forecast_list (base_time : datetime) (first_draw : nat) : list json :=
  map (fun i => demo_point base_time i (rng (first_draw + i))) (seq 0 40).

Definition generate_demo_data (w : World) : json * json * World :=
  let w1 := print "Using DEMO DATA - API key not required" w in
  let base_time := clock (now_reads w1) in
  let forecast := JDict [("list", JList (forecast_list base_time (rng_used w1)))] in
  (demo_current, forecast,
   mkWorld (use_demo w1) (S (now_reads w1)) (rng_used w1 + 40)
           (requests_sent w1) (stdout w1) (saved w1)).

(** *** The two fetch methods *)

(** The body of the [try] block: [requests.get], [raise_for_status],
    [response.json()].  Every failure is a [RequestException]. *)
Definition http_get_json (endpoint : string) (w : World) : result json * World :=
  let w1 := mkWorld (use_demo w) (now_reads w) (rng_used w)
                    (S (requests_sent w)) (stdout w) (saved w) in
  match network (requests_sent w) endpoint with
  | NoResponse => (Raise (RequestException ConnectionFailed), w1)
  | Http status body =>
      if ((400 <=? status) && (status <? 600))%Z
      then (Raise (RequestException (BadStatus status)), w1)
      else match body with
           | Some j => (Return j, w1)
           | None => (Raise (RequestException BadBody), w1)
           end
  end.

(** The methods call themselves; [fuel] bounds the number of nested
    activations ([None] when it is exhausted).  Printed messages are
    abbreviated. *)
Fixpoint fetch_current_weather (fuel : nat) (w : World) : option (json * World) :=
  match fuel with
  | O => None
  | S fuel' =>
      if use_demo w then
        let '(current, _, w1) := generate_demo_data w in Some (current, w1)
      else
        match http_get_json "/weather" w with
        | (Return j, w1) => Some (j, w1)
        | (Raise _, w1) =>
            let w2 := print "Error fetching current weather" w1 in
            let w3 := print "API KEY ISSUE DETECTED!" w2 in
            let w4 := print "Your API key may not be activated yet (takes up to 2 hours)" w3 in
            let w5 := print "Switching to DEMO MODE..." w4 in
            fetch_current_weather fuel' (set_use_demo true w5)
        end
  end.

Fixpoint fetch_forecast (fuel : nat) (w : World) : option (json * World) :=
  match fuel with
  | O => None
  | S fuel' =>
      if use_demo w then
        let '(_, forecast, w1) := generate_demo_data w in Some (forecast, w1)
      else
        match http_get_json "/forecast" w with
        | (Return j, w1) => Some (j, w1)
        | (Raise _, w1) =>
            let w2 := print "Error fetching forecast" w1 in
            fetch_forecast fuel' (set_use_demo true w2)
        end
  end.

(** *** [process_forecast_data] *)

Definition process_item (item : json) : result Row :=
  dt <- getitem item "dt" ;;
  when <- fromtimestamp dt ;;
  m1 <- getitem item "main" ;;
  temp <- getitem m1 "temp" ;;
  m2 <- getitem item "main" ;;
  feels <- getitem m2 "feels_like" ;;
  m3 <- getitem item "main" ;;
  hum <- getitem m3 "humidity" ;;
  m4 <- getitem item "main" ;;
  pres <- getitem m4 "pressure" ;;
  wnd <- getitem item "wind" ;;
  speed <- getitem wnd "speed" ;;
  ws1 <- getitem item "weather" ;;
  w1 <- getitem0 ws1 ;;
  wmain <- getitem w1 "main" ;;
  ws2 <- getitem item "weather" ;;
  w2 <- getitem0 ws2 ;;
  wdesc <- getitem w2 "description" ;;
  Return (mkRow when temp feels hum pres speed wmain wdesc).

Fixpoint process_items (items : list json) : result (list Row) :=
  match items with
  | [] => Return []
  | item :: rest =>
      row <- process_item item ;;
      rows <- process_items rest ;;
      Return (row :: rows)
  end.

(** [None] is Python's [None]; [Some df] is the DataFrame. *)
Definition process_forecast_data (forecast_data : json) : result (option DataFrame) :=
  if negb (truthy forecast_data) then Return None
  else
    lst <- getitem forecast_data "list" ;;
    items <- iterate lst ;;
    rows <- process_items items ;;
    Return (Some rows).

(** *** The adapter as a sequence of fetch calls *)

Inductive Call : Type := CurrentWeather | Forecast.

Definition endpoint (c : Call) : string :=
  match c with
  | CurrentWeather => "/weather"
  | Forecast => "/forecast"
  end.

Definition fetch (fuel : nat) (c : Call) (w : World) : option (json * World) :=
  match c with
  | CurrentWeather => fetch_current_weather fuel w
  | Forecast => fetch_forecast fuel w
  end.

Fixpoint run_calls (fuel : nat) (cs : list Call) (w : World)
  : option (list json * World) :=
  match cs with
  | [] => Some ([], w)
  | c :: rest =>
      match fetch fuel c w with
      | None => None
      | Some (v, w1) =>
          match run_calls fuel rest w1 with
          | None => None
          | Some (vs, w2) => Some (v :: vs, w2)
          end
      end
  end.

(** What a call yields when it is served by [generate_demo_data] alone. *)
Definition synthesized (c : Call) (w : World) : json * World :=
  let '(current, forecast, w1) := generate_demo_data w in
  (match c with CurrentWeather => current | Forecast => forecast end, w1).

Fixpoint synthesize_all (cs : list Call) (w : World) : list json * World :=
  match cs with
  | [] => ([], w)
  | c :: rest =>
      let '(v, w1) := synthesized c w in
      let '(vs, w2) := synthesize_all rest w1 in
      (v :: vs, w2)
  end.

(** *** [create_dashboard] *)

Definition savefig (w : World) : World :=
  let filename := if use_demo w then "weather_dashboard_demo.png"
                  else "weather_dashboard.png" in
  print "Dashboard saved"
        (mkWorld (use_demo w) (now_reads w) (rng_used w) (requests_sent w)
                 (stdout w) (filename :: saved w)).

Definition create_dashboard (fuel : nat) (w : World)
  : option (result (option DataFrame) * World) :=
  match fetch_current_weather fuel w with
  | None => None
  | Some (current, w1) =>
      match fetch_forecast fuel w1 with
      | None => None
      | Some (forecast, w2) =>
          if negb (truthy current) || negb (truthy forecast) then
            Some (Return None, print "Failed to fetch weather data." w2)
          else
            match process_forecast_data forecast with
            | Raise e => Some (Raise e, w2)
            | Return df =>
                match draw_panels current df with
                | Raise e => Some (Raise e, w2)
                | Return _ => Some (Return df, savefig w2)
                end
            end
      end
  end.



(** *** The script body (lines 271-297)

    [USE_DEMO] is [False].  Banner lines are abbreviated, and the summary
    printed by [describe()] is taken not to fail. *)

Definition initial_world : World :=
  print "WEATHER DASHBOARD GENERATOR" (mkWorld false 0 0 0 [] []).

Definition main (fuel : nat) : option (result unit * World) :=
  match create_dashboard fuel initial_world with
  | None => None
  | Some (Raise e, w) => Some (Raise e, w)
  | Some (Return None, w) => Some (Return tt, w)
  | Some (Return (Some _), w) =>
      Some (Return tt,
            print "Dashboard generation complete!"
                  (print "WEATHER STATISTICS SUMMARY" w))
  end.

(** The [except] clause of a fetch method: its messages, then the flag. *)
Definition except_clause (c : Call) (w : World) : World :=
  match c with
  | CurrentWeather =>
      set_use_demo true
        (print "Switching to DEMO MODE..."
           (print "Your API key may not be activated yet (takes up to 2 hours)"
              (print "API KEY ISSUE DETECTED!"
                 (print "Error fetching current weather" w))))
  | Forecast => set_use_demo true (print "Error fetching forecast" w)
  end.


(** ** Further readers of a forecast point *)

Definition float_field (r : result json) : option R :=
  match r with
  | Return (JFloat x) => Some x
  | _ => None
  end.

Definition point_temp (p : json) : option R :=
  float_field (m <- getitem p "main" ;; getitem m "temp").

Definition point_feels_like (p : json) : option R :=
  float_field (m <- getitem p "main" ;; getitem m "feels_like").

Definition point_wind_speed (p : json) : option R :=
  float_field (x <- getitem p "wind" ;; getitem x "speed").

(** The float expression of line 50. *)
Definition temp_signal (i : nat) (noise : R) : R :=
  (18 + 5 * sin (INR i * PI / 8) + noise)%R.

(** The row [process_forecast_data] builds from the point of iteration
    [i]. *)
Definition demo_row (base_time : datetime) (i : nat) (d : Draws) : Row :=
  mkRow (local (py_int (timestamp (time_point base_time i))) * 1000000)%Z
        (JFloat (round1 (temp_signal i (temp_noise d))))
        (JFloat (round1 (temp_signal i (temp_noise d) - 1.5)))
        (JInt (py_int (humidity_signal i (humidity_noise d))))
        (JInt (py_int (pressure_signal i)))
        (JFloat (round1 (3 + 3 * wind_random d)))
        (JStr (condition_name (weather_choice d)))
        (JStr "demo weather").

(** The table [process_forecast_data] builds from a synthesized forecast. *)
Definition demo_table (base_time : datetime) (first_draw : nat) : DataFrame :=
  map (fun i => demo_row base_time i (rng (first_draw + i))) (seq 0 40).

Definition demo_filename : string := "weather_dashboard_demo.png".
Definition live_filename : string := "weather_dashboard.png".

(** ** Sample inputs *)

(** A machine on Indian Standard Time whose clock reads
    2024-01-01T00:00:00 local time. *)
Definition ist_offset (u : Z) : Offset := mkOffset 19800 eq_refl.
Definition new_year_2024 : datetime := 1704067200000000%Z.
Definition steady_clock (n : nat) : Reading := mkReading new_year_2024 eq_refl.




Definition calm_draws : Draws := mkDraws 0 (3 / 4) (1 / 2) Clouds.
Definition calm_rng (n : nat) : Draws := calm_draws.

Definition offline (n : nat) (url : string) : Response := NoResponse.

(** A service that answers the forecast request with [null]. *)
Definition null_forecast (n : nat) (url : string) : Response :=
  if String.eqb url "/weather" then Http 200 (Some demo_current)
  else Http 200 (Some JNull).

Definition no_panels (current : json) (df : option DataFrame) : result unit :=
  Return tt.

Definition demo_world : World := mkWorld true 0 0 0 [] [].

Definition sample_point (dt : Z) (temp : R) (conditions : list json) : json :=
  JDict [("dt", JInt dt);
         ("main", JDict [("temp", JFloat temp); ("feels_like", JFloat (temp - 1.5));
                         ("humidity", JInt 65); ("pressure", JInt 1013)]);
         ("wind", JDict [("speed", JFloat 4.5)]);
         ("weather", JList conditions)].

Definition cloudy : json :=
  JDict [("main", JStr "Clouds"); ("description", JStr "partly cloudy")].

Definition sample_points : list json :=
  [sample_point 1704047400 18.5 [cloudy]; sample_point 1704058200 19 [cloudy]].

Definition sample_forecast : json := JDict [("list", JList sample_points)].

(** The second point has an empty conditions list. *)
Definition broken_points : list json :=
  [sample_point 1704047400 18.5 [cloudy]; sample_point 1704058200 19 []].

Definition broken_forecast : json := JDict [("list", JList broken_points)].

Definition sample_row (when : datetime) (temp : R) : Row :=
  mkRow when (JFloat temp) (JFloat (temp - 1.5)) (JInt 65) (JInt 1013)
        (JFloat 4.5) (JStr "Clouds") (JStr "partly cloudy").

(** Two rows on 2024-01-01 and one on 2024-01-02. *)
Definition sample_table : DataFrame :=
  [sample_row 1704067200000000%Z 18.5;
   sample_row 1704078000000000%Z 19;
   sample_row 1704153600000000%Z 17].

(** One row on each of 2024-01-01 and 2024-01-02. *)
Definition one_per_day : DataFrame :=
  [sample_row 1704067200000000%Z 18.5; sample_row 1704153600000000%Z 17].

(** A service whose forecast endpoint is down. *)
Definition forecast_down (n : nat) (url : string) : Response :=
  if String.eqb url "/weather" then Http 200 (Some demo_current)
  else Http 503 None.

(** A service that answers the forecast request with an empty list. *)
Definition empty_forecast (n : nat) (url : string) : Response :=
  if String.eqb url "/weather" then Http 200 (Some demo_current)
  else Http 200 (Some (JDict [("list", JList [])])).

(** A service that answers the current-weather request with an empty
    record. *)
Definition empty_current (n : nat) (url : string) : Response :=
  if String.eqb url "/weather" then Http 200 (Some (JDict []))
  else Http 200 (Some sample_forecast).

(** An answer without a forecast list. *)
Definition no_list_record : json := JDict [("cod", JStr "200")].

(** * Properties *)

(** ** Truncation and rounding *)

Lemma py_int_nonneg (x : R) :
  (0 <= x)%R -> (IZR (py_int x) <= x < IZR (py_int x) + 1)%R.
Proof.
  intros Hx. unfold py_int.
  destruct (Rle_dec 0 x) as [_ | Hn]; [| contradiction].
  destruct (base_Int_part x) as [Hlo Hhi]. lra.
Qed.

Lemma py_int_unique (x : R) (z : Z) :
  (0 <= x)%R -> (IZR z <= x < IZR z + 1)%R -> py_int x = z.
Proof.
  intros Hx [Hlo Hhi]. unfold py_int.
  destruct (Rle_dec 0 x) as [_ | Hn]; [| contradiction].
  symmetry. apply Int_part_spec. lra.
Qed.

Lemma py_round_unique_up (x : R) (z : Z) :
  (IZR z - 1 / 2 < x < IZR z + 1 / 2)%R -> py_round x = z.
Proof.
  intros [Hlo Hhi]. unfold py_round.
  destruct (base_Int_part x) as [Flo Fhi].
  set (f := Int_part x) in *.
  assert (Hf : (f = z \/ f = z - 1)%Z).
  { assert (H1 : (IZR f < IZR (z + 1))%R) by (rewrite plus_IZR; lra).
    assert (H2 : (IZR (z - 2) < IZR f)%R) by (rewrite minus_IZR; lra).
    apply lt_IZR in H1. apply lt_IZR in H2. lia. }
  destruct Hf as [-> | ->].
  - destruct (Rlt_dec (x - IZR z) (1 / 2)) as [_ | Hn]; [reflexivity | lra].
  - rewrite minus_IZR in *.
    destruct (Rlt_dec (x - (IZR z - 1)) (1 / 2)) as [Hc | _]; [lra |].
    destruct (Rlt_dec (1 / 2) (x - (IZR z - 1))) as [_ | Hn]; [lia | lra].
Qed.

(** ** Conversions between naive datetimes and epoch seconds *)

Lemma py_int_whole_and_fraction (m us : Z) :
  (0 <= us < 1000000)%Z ->
  (m <= py_int (IZR m + IZR us / 1000000) <= m + 1)%Z /\
  ((0 <= m)%Z -> py_int (IZR m + IZR us / 1000000) = m).
Proof.
  intros [Hu0 Hu1]. apply IZR_le in Hu0. apply IZR_lt in Hu1.
  set (x := (IZR m + IZR us / 1000000)%R).
  assert (Hx : (IZR m <= x < IZR m + 1)%R) by (unfold x; lra).
  assert (Hnonneg : (0 <= m)%Z -> py_int x = m).
  { intros Hm. apply IZR_le in Hm. apply py_int_unique; lra. }
  split; [| exact Hnonneg].
  destruct (Z_le_gt_dec 0 m) as [Hm | Hm]; [rewrite (Hnonneg Hm); lia |].
  assert (Hneg : (IZR m <= -1)%R) by (apply IZR_le; lia).
  unfold py_int. destruct (Rle_dec 0 x) as [Hc | _]; [lra |].
  destruct (base_Int_part (- x)) as [Flo Fhi].
  set (f := Int_part (- x)) in *.
  assert (H1 : (IZR (- m - 2) < IZR f)%R)
    by (rewrite minus_IZR, opp_IZR; lra).
  assert (H2 : (IZR f < IZR (- m + 1))%R)
    by (rewrite plus_IZR, opp_IZR; lra).
  apply lt_IZR in H1, H2. lia.
Qed.

Lemma utcoffset_bound (u : Z) : (-86400 < utcoffset u < 86400)%Z.
Proof.
  unfold utcoffset. pose proof (offset_ok (zone u)) as H.
  apply Z.ltb_lt in H. lia.
Qed.

Lemma mktime_near (t : Z) : (t - 86400 < mktime t < t + 86400)%Z.
Proof.
  unfold mktime, local.
  pose proof (utcoffset_bound t) as Ha.
  set (a := (t + utcoffset t - t)%Z).
  assert (Ea : a = utcoffset t) by (unfold a; lia).
  set (u1 := (t - a)%Z).
  pose proof (utcoffset_bound u1) as H1.
  pose proof (utcoffset_bound (u1 - 86400)) as H2.
  set (b1 := (u1 - 86400 + utcoffset (u1 - 86400) - (u1 - 86400))%Z).
  assert (Eb1 : b1 = utcoffset (u1 - 86400)) by (unfold b1; lia).
  set (b2 := (u1 + utcoffset u1 - u1)%Z).
  assert (Eb2 : b2 = utcoffset u1) by (unfold b2; lia).
  destruct (u1 + utcoffset u1 =? t)%Z.
  - destruct (a =? b1)%Z; [lia |].
    destruct (t - b1 + utcoffset (t - b1) =? t)%Z; lia.
  - destruct (t - b2 + utcoffset (t - b2) =? t)%Z; lia.
Qed.

Lemma mktime_steady (t off : Z) :
  steady off (t - off - 86400) (t - off + 86400) -> mktime t = (t - off)%Z.
Proof.
  intros Hs.
  assert (Hoff : (-86400 < off < 86400)%Z).
  { rewrite <- (Hs (t - off)%Z) by lia. apply utcoffset_bound. }
  unfold mktime, local.
  rewrite (Hs t) by lia.
  replace (t + off - t)%Z with off by lia.
  rewrite (Hs (t - off)%Z) by lia.
  replace (t - off + off)%Z with t by lia.
  rewrite Z.eqb_refl.
  rewrite (Hs (t - off - 86400)%Z) by lia.
  replace (t - off - 86400 + off - (t - off - 86400))%Z with off by lia.
  rewrite Z.eqb_refl. reflexivity.
Qed.

Lemma time_point_seconds (t0 : datetime) (i : nat) :
  (time_point t0 i / 1000000 = t0 / 1000000 + Z.of_nat i * 10800)%Z /\
  (time_point t0 i mod 1000000 = t0 mod 1000000)%Z.
Proof.
  unfold time_point, timedelta_hours.
  replace (t0 + Z.of_nat i * 3 * 3600 * 1000000)%Z
    with (t0 + (Z.of_nat i * 10800) * 1000000)%Z by lia.
  split; [apply Z.div_add | apply Z.mod_add]; lia.
Qed.

Lemma timestamp_seconds (d : datetime) :
  (mktime (d / 1000000) <= py_int (timestamp d) <= mktime (d / 1000000) + 1)%Z /\
  ((0 <= mktime (d / 1000000))%Z ->
   py_int (timestamp d) = mktime (d / 1000000)).
Proof.
  unfold timestamp. apply py_int_whole_and_fraction.
  apply Z.mod_pos_bound. lia.
Qed.

Lemma clock_range (n : nat) :
  (MIN_SECONDS + 864000 <= clock n / 1000000 <= MAX_SECONDS - 864000)%Z.
Proof.
  unfold clock. pose proof (reading_ok (wall_clock n)) as H.
  unfold in_datetime_range in H.
  repeat (apply andb_true_iff in H; destruct H as [H ?]).
  lia.
Qed.

Lemma synthesized_dt_decodes (n i : nat) :
  (i < 40)%nat ->
  in_datetime_range (local (py_int (timestamp (time_point (clock n) i)))) = true.
Proof.
  intros Hi.
  destruct (timestamp_seconds (time_point (clock n) i)) as [Hdt _].
  destruct (time_point_seconds (clock n) i) as [Hsec _].
  pose proof (mktime_near (time_point (clock n) i / 1000000)) as Hmk.
  pose proof (clock_range n) as Hc. rewrite Hsec in Hmk, Hdt.
  set (dt := py_int (timestamp (time_point (clock n) i))) in *.
  pose proof (utcoffset_bound dt) as Hoff.
  unfold in_datetime_range, local. unfold MIN_SECONDS, MAX_SECONDS in *.
  apply andb_true_iff. split; [apply Z.leb_le | apply Z.leb_le]; lia.
Qed.

Lemma fromtimestamp_int (s : Z) :
  fromtimestamp (JInt s)
  = if in_datetime_range (local s) then Return (local s * 1000000)%Z
    else Raise DateRangeError.
Proof.
  unfold fromtimestamp, from_epoch_us.
  rewrite Z.div_mul, Z.mod_mul by lia.
  destruct (in_datetime_range (local s)); [f_equal; lia | reflexivity].
Qed.

(** ** The synthesized forecast *)

Lemma nth_forecast_list (base_time : datetime) (first_draw i : nat) :
  (i < 40)%nat ->
  nth i (forecast_list base_time first_draw) JNull
  = demo_point base_time i (rng (first_draw + i)).
Proof.
  intros Hi. unfold forecast_list.
  rewrite (nth_indep _ JNull (demo_point base_time 0 (rng (first_draw + 0)))).
  - rewrite (map_nth (fun k => demo_point base_time k (rng (first_draw + k)))).
    rewrite seq_nth by exact Hi. reflexivity.
  - rewrite length_map, length_seq. exact Hi.
Qed.

Lemma demo_forecast_points (w : World) :
  forecast_points (snd (fst (generate_demo_data w)))
  = forecast_list (clock (now_reads w)) (rng_used w).
Proof. reflexivity. Qed.

Lemma epoch_seconds_step (t0 : datetime) (off : Z) (i : nat) :
  (i < 40)%nat ->
  (0 <= t0 / 1000000 - off)%Z ->
  steady off (t0 / 1000000 - off - 86400) (t0 / 1000000 - off + 421200 + 86400) ->
  py_int (timestamp (time_point t0 i))
  = (t0 / 1000000 - off + Z.of_nat i * 10800)%Z.
Proof.
  intros Hi H0 Hs.
  destruct (timestamp_seconds (time_point t0 i)) as [_ Hdt].
  destruct (time_point_seconds t0 i) as [Hsec _].
  rewrite Hsec in Hdt.
  assert (Hmk : mktime (t0 / 1000000 + Z.of_nat i * 10800)
                = (t0 / 1000000 + Z.of_nat i * 10800 - off)%Z).
  { apply mktime_steady. intros u Hu. apply Hs. lia. }
  rewrite Hmk in Hdt. rewrite Hdt by lia. lia.
Qed.


Lemma py_int_between (x : R) (a b : Z) :
  (0 <= x)%R -> (IZR a <= x <= IZR b)%R -> (a <= py_int x <= b)%Z.
Proof.
  intros Hx [Ha Hb]. destruct (py_int_nonneg x Hx) as [Hlo Hhi].
  split.
  - assert (H : (IZR a < IZR (py_int x + 1))%R) by (rewrite plus_IZR; lra).
    apply lt_IZR in H. lia.
  - apply le_IZR. lra.
Qed.

Lemma humidity_signal_range (i : nat) (noise : R) :
  (-5 <= noise < 5)%R -> (35 <= humidity_signal i noise < 85)%R.
Proof.
  intros Hn. unfold humidity_signal.
  pose proof (SIN_bound (INR i * PI / 12)) as Hs. lra.
Qed.

Lemma pressure_signal_range (i : nat) :
  (1000 <= pressure_signal i <= 1020)%R.
Proof.
  unfold pressure_signal.
  pose proof (SIN_bound (INR i * PI / 20)) as Hs. lra.
Qed.

Lemma demo_point_humidity (base_time : datetime) (i : nat) (d : Draws) :
  point_humidity (demo_point base_time i d)
  = Some (py_int (humidity_signal i (humidity_noise d))).
Proof. reflexivity. Qed.

Lemma demo_point_pressure (base_time : datetime) (i : nat) (d : Draws) :
  point_pressure (demo_point base_time i d)
  = Some (py_int (pressure_signal i)).
Proof. reflexivity. Qed.

(** C5 (amended).  In every synthesized point the integer humidity and
    pressure are the float expressions truncated by [int]; the expressions
    are positive, so each integer is the floor of its expression: it is at
    most the expression and less than one below it. *)
Theorem synthesized_integers_truncate (w : World) (i : nat) :
  let pts := forecast_points (snd (fst (generate_demo_data w))) in
  let noise := humidity_noise (rng (rng_used w + i)) in
  (i < 40)%nat ->
  (-5 <= noise < 5)%R ->
  exists h p,
    point_humidity (nth i pts JNull) = Some h /\
    point_pressure (nth i pts JNull) = Some p /\
    h = py_int (humidity_signal i noise) /\
    p = py_int (pressure_signal i) /\
    (IZR h <= humidity_signal i noise < IZR h + 1)%R /\
    (IZR p <= pressure_signal i < IZR p + 1)%R.
Proof.
  intros pts noise Hi Hn. subst pts.
  rewrite demo_forecast_points, nth_forecast_list by exact Hi.
  rewrite demo_point_humidity, demo_point_pressure. fold noise.
  pose proof (humidity_signal_range i noise Hn) as Hh.
  pose proof (pressure_signal_range i) as Hp.
  eexists. eexists.
  repeat split; try reflexivity; apply py_int_nonneg; lra.
Qed.

(** C6.  With every noise draw in its interval, each of the 40 synthesized
    points has humidity in [0, 100] and pressure in [990, 1030]; so the
    share of points with humidity in range, 40 of 40, is at least 95%. *)
Theorem synthesized_ranges (w : World) :
  let pts := forecast_points (snd (fst (generate_demo_data w))) in
  (forall k, draws_in_range (rng k)) ->
  (forall i, (i < 40)%nat ->
     exists h p,
       point_humidity (nth i pts JNull) = Some h /\ (0 <= h <= 100)%Z /\
       point_pressure (nth i pts JNull) = Some p /\ (990 <= p <= 1030)%Z) /\
  List.length (filter (within 0 100 point_humidity) pts) = List.length pts /\
  List.length (filter (within 990 1030 point_pressure) pts) = List.length pts /\
  (95 * List.length pts
   <= 100 * List.length (filter (within 0 100 point_humidity) pts))%nat.
Proof.
  intros pts Hrng. subst pts. rewrite demo_forecast_points.
  set (base := clock (now_reads w)). set (first := rng_used w).
  assert (Hpt : forall i d, draws_in_range d ->
            exists h p,
              point_humidity (demo_point base i d) = Some h /\
              (35 <= h <= 85)%Z /\
              point_pressure (demo_point base i d) = Some p /\
              (1000 <= p <= 1020)%Z).
  { intros i d (_ & Hn & _).
    rewrite demo_point_humidity, demo_point_pressure.
    pose proof (humidity_signal_range i _ Hn) as Hh.
    pose proof (pressure_signal_range i) as Hp.
    eexists. eexists.
    split; [reflexivity |]. split; [apply py_int_between; lra |].
    split; [reflexivity |]. apply py_int_between; lra. }
  assert (Hall : forall q, In q (forecast_list base first) ->
            within 0 100 point_humidity q = true /\
            within 990 1030 point_pressure q = true).
  { intros q Hq. unfold forecast_list in Hq. apply in_map_iff in Hq.
    destruct Hq as (i & <- & _).
    destruct (Hpt i (rng (first + i)) (Hrng _)) as (h & p & Eh & Bh & Ep & Bp).
    unfold within. rewrite Eh, Ep. split; apply andb_true_iff; lia. }
  assert (Hfilter : forall (f : json -> bool) (l : list json),
            (forall q, In q l -> f q = true) -> filter f l = l).
  { intros f l. induction l as [| a l IH]; intros Hf; [reflexivity |].
    simpl. rewrite (Hf a (or_introl eq_refl)). f_equal.
    apply IH. intros q Hq. apply Hf. right. exact Hq. }
  split.
  { intros i Hi. rewrite nth_forecast_list by exact Hi.
    destruct (Hpt i (rng (first + i)) (Hrng _)) as (h & p & Eh & Bh & Ep & Bp).
    exists h, p. repeat split; try assumption; lia. }
  rewrite !Hfilter by (intros q Hq; apply (Hall q Hq)).
  repeat split. lia.
Qed.

(** ** The fetch methods *)

Lemma fetch_in_demo_mode (c : Call) (w : World) (k : nat) :
  use_demo w = true -> fetch (S k) c w = Some (synthesized c w).
Proof.
  intros Hd. destruct c; unfold synthesized; simpl; rewrite Hd; reflexivity.
Qed.

Lemma synthesized_world (c : Call) (w : World) :
  use_demo (snd (synthesized c w)) = use_demo w /\
  requests_sent (snd (synthesized c w)) = requests_sent w /\
  saved (snd (synthesized c w)) = saved w.
Proof. destruct c; repeat split. Qed.

Lemma fetch_after_failure (c : Call) (w : World) (k : nat) :
  use_demo w = false ->
  failed (fst (http_get_json (endpoint c) w)) = true ->
  fetch (S (S k)) c w
  = Some (synthesized c (except_clause c (snd (http_get_json (endpoint c) w)))).
Proof.
  intros Hd Hf.
  destruct c; simpl in *; rewrite Hd;
    destruct (http_get_json _ w) as [[j | e] w1]; simpl in Hf;
    try discriminate Hf; reflexivity.
Qed.

Lemma fetch_without_failure (c : Call) (w : World) (k : nat) :
  use_demo w = false ->
  failed (fst (http_get_json (endpoint c) w)) = false ->
  exists j, fst (http_get_json (endpoint c) w) = Return j /\
            fetch (S k) c w = Some (j, snd (http_get_json (endpoint c) w)).
Proof.
  intros Hd Hf.
  destruct c; simpl in *; rewrite Hd;
    destruct (http_get_json _ w) as [[j | e] w1]; simpl in Hf;
    try discriminate Hf; exists j; split; reflexivity.
Qed.

Lemma run_calls_in_demo_mode (cs : list Call) :
  forall (w : World) (k : nat),
    use_demo w = true ->
    run_calls (S k) cs w = Some (synthesize_all cs w) /\
    use_demo (snd (synthesize_all cs w)) = true /\
    requests_sent (snd (synthesize_all cs w)) = requests_sent w.
Proof.
  induction cs as [| c cs IH]; intros w k Hd.
  - simpl. auto.
  - cbn [run_calls synthesize_all].
    rewrite fetch_in_demo_mode by exact Hd.
    destruct (synthesized_world c w) as (Hu & Hr & _).
    destruct (synthesized c w) as [v w1]. simpl in Hu, Hr.
    destruct (IH w1 k) as (Hrun & Hu' & Hr'); [congruence |].
    rewrite Hrun. destruct (synthesize_all cs w1) as [vs w2].
    simpl in *. repeat split; congruence.
Qed.

(** C2.  When the request of a fetch call fails, the call sets the flag and
    answers with synthesized data; from then on the flag stays set, every
    further fetch call of the run is answered by [generate_demo_data], and
    no further request is sent. *)
Theorem sticky_fallback (c : Call) (w : World) (k : nat) :
  use_demo w = false ->
  failed (fst (http_get_json (endpoint c) w)) = true ->
  exists v w1,
    fetch (S (S k)) c w = Some (v, w1) /\
    (v, w1) = synthesized c (except_clause c (snd (http_get_json (endpoint c) w))) /\
    use_demo w1 = true /\
    requests_sent w1 = S (requests_sent w) /\
    forall (cs : list Call) (n : nat),
      run_calls (S n) cs w1 = Some (synthesize_all cs w1) /\
      use_demo (snd (synthesize_all cs w1)) = true /\
      requests_sent (snd (synthesize_all cs w1)) = requests_sent w1.
Proof.
  intros Hd Hf.
  rewrite (fetch_after_failure c w k Hd Hf).
  set (w0 := except_clause c (snd (http_get_json (endpoint c) w))).
  assert (Hw0 : use_demo w0 = true /\ requests_sent w0 = S (requests_sent w)).
  { subst w0. unfold http_get_json.
    destruct c; simpl;
      destruct (network (requests_sent w) _) as [| status [body |]];
      try destruct ((400 <=? status) && (status <? 600))%Z; simpl; auto. }
  destruct Hw0 as [Hu0 Hr0].
  destruct (synthesized_world c w0) as (Hu & Hr & _).
  destruct (synthesized c w0) as [v w1] eqn:E. simpl in Hu, Hr.
  exists v, w1. split; [reflexivity |]. split; [reflexivity |].
  split; [congruence |]. split; [congruence |].
  intros cs n. apply run_calls_in_demo_mode. congruence.
Qed.

(** C9.  Both fetch methods terminate with at most one nested activation:
    two activations always produce the result, any larger budget gives the
    same result, and once the flag is set a single activation (the demo
    branch, which neither fails nor recurses) is enough. *)
Theorem fetch_terminates (c : Call) (w : World) (k : nat) :
  (exists r, fetch 2 c w = Some r) /\
  fetch (S (S k)) c w = fetch 2 c w /\
  fetch (S k) c (set_use_demo true w)
  = Some (synthesized c (set_use_demo true w)).
Proof.
  split; [| split].
  - destruct (use_demo w) eqn:Hd.
    + eexists. apply fetch_in_demo_mode. exact Hd.
    + destruct (failed (fst (http_get_json (endpoint c) w))) eqn:Hf.
      * eexists. apply fetch_after_failure; assumption.
      * destruct (fetch_without_failure c w 1 Hd Hf) as (j & _ & Hj).
        eexists. exact Hj.
  - destruct (use_demo w) eqn:Hd.
    + rewrite !fetch_in_demo_mode by exact Hd. reflexivity.
    + destruct (failed (fst (http_get_json (endpoint c) w))) eqn:Hf.
      * rewrite !fetch_after_failure by assumption. reflexivity.
      * destruct (fetch_without_failure c w (S k) Hd Hf) as (j & Ej & Hj).
        destruct (fetch_without_failure c w 1 Hd Hf) as (j' & Ej' & Hj').
        rewrite Hj, Hj'. congruence.
  - apply fetch_in_demo_mode. reflexivity.
Qed.

(** ** Normalisation *)

Lemma process_forecast_data_falsy (fd : json) :
  truthy fd = false -> process_forecast_data fd = Return None.
Proof.
  intros H. unfold process_forecast_data. rewrite H. reflexivity.
Qed.




Lemma process_forecast_data_list (fd : json) (pts : list json) :
  getitem fd "list" = Return (JList pts) ->
  process_forecast_data fd
  = (rows <- process_items pts ;; Return (Some rows)).
Proof.
  intros Hl. unfold process_forecast_data.
  destruct fd as [| b | z | x | s | l | d |]; try discriminate Hl.
  destruct d as [| kv d]; [discriminate Hl |].
  cbn [truthy negb]. rewrite Hl. reflexivity.
Qed.


(** ** [create_dashboard] *)

Lemma http_get_json_saved (url : string) (w : World) :
  saved (snd (http_get_json url w)) = saved w.
Proof.
  unfold http_get_json.
  destruct (network (requests_sent w) url) as [| status [body |]];
    try destruct ((400 <=? status) && (status <? 600))%Z; reflexivity.
Qed.

Lemma fetch_saved (fuel : nat) (c : Call) (w w' : World) (v : json) :
  fetch fuel c w = Some (v, w') -> saved w' = saved w.
Proof.
  intros H. destruct fuel as [| fuel]; [destruct c; discriminate H |].
  destruct (use_demo w) eqn:Hd.
  { rewrite fetch_in_demo_mode in H by exact Hd.
    assert (E : synthesized c w = (v, w')) by congruence.
    destruct (synthesized_world c w) as (_ & _ & Hs).
    rewrite E in Hs. exact Hs. }
  destruct (failed (fst (http_get_json (endpoint c) w))) eqn:Hf.
  - destruct fuel as [| k].
    + exfalso. destruct c; simpl in *; rewrite Hd in H;
        destruct (http_get_json _ w) as [[j | e] w1]; simpl in Hf;
        discriminate.
    + rewrite fetch_after_failure in H by assumption.
      set (w0 := except_clause c (snd (http_get_json (endpoint c) w))) in *.
      assert (E : synthesized c w0 = (v, w')) by congruence.
      destruct (synthesized_world c w0) as (_ & _ & Hs).
      rewrite E in Hs. simpl in Hs. rewrite Hs. subst w0.
      destruct c; simpl; apply http_get_json_saved.
  - destruct (fetch_without_failure c w fuel Hd Hf) as (j & _ & Hj).
    assert (E : w' = snd (http_get_json (endpoint c) w)) by congruence.
    rewrite E. apply http_get_json_saved.
Qed.




(** C10.  On an absent or empty forecast ([None], or any falsy value)
    [process_forecast_data] returns [None] and raises nothing; and when a
    fetch hands such a value to [create_dashboard], the guard returns [None]
    with nothing drawn or saved. *)
Theorem absent_forecast_returns_none (fd : json) :
  truthy fd = false ->
  process_forecast_data fd = Return None /\
  (forall fuel w current w1 w2,
      fetch_current_weather fuel w = Some (current, w1) ->
      fetch_forecast fuel w1 = Some (fd, w2) ->
      create_dashboard fuel w
      = Some (Return None, print "Failed to fetch weather data." w2) /\
      saved (print "Failed to fetch weather data." w2) = saved w).
Proof.
  intros Hf. split; [exact (process_forecast_data_falsy fd Hf) |].
  intros fuel w current w1 w2 Hcur Hfc. split.
  - unfold create_dashboard. rewrite Hcur, Hfc, Hf.
    rewrite orb_true_r. reflexivity.
  - cbn [print saved].
    rewrite (fetch_saved fuel Forecast w1 w2 fd Hfc).
    exact (fetch_saved fuel CurrentWeather w w1 current Hcur).
Qed.

Lemma demo_point_well_formed (base_time : datetime) (i : nat) (d : Draws) :
  typed_point (demo_point base_time i d) = true /\
  complete_point (demo_point base_time i d) = true.
Proof. split; reflexivity. Qed.

(** ** Further properties of the synthesized values *)

Lemma py_round_near (x : R) :
  (x - 1 / 2 <= IZR (py_round x) <= x + 1 / 2)%R.
Proof.
  unfold py_round. destruct (base_Int_part x) as [Flo Fhi].
  set (f := Int_part x) in *.
  destruct (Rlt_dec (x - IZR f) (1 / 2)) as [H1 | H1]; [lra |].
  destruct (Rlt_dec (1 / 2) (x - IZR f)) as [H2 | H2];
    [rewrite plus_IZR; lra |].
  destruct (Z.even f); [| rewrite plus_IZR]; lra.
Qed.

Lemma py_round_between (x : R) (a b : Z) :
  (IZR a <= x <= IZR b)%R -> (a <= py_round x <= b)%Z.
Proof.
  intros [Ha Hb]. destruct (py_round_near x) as [Hlo Hhi]. split.
  - assert (H : (IZR (a - 1) < IZR (py_round x))%R)
      by (rewrite minus_IZR; lra).
    apply lt_IZR in H. lia.
  - assert (H : (IZR (py_round x) < IZR (b + 1))%R)
      by (rewrite plus_IZR; lra).
    apply lt_IZR in H. lia.
Qed.

Lemma round1_between (x : R) (a b : Z) :
  (IZR a / 10 <= x <= IZR b / 10)%R ->
  (IZR a / 10 <= round1 x <= IZR b / 10)%R.
Proof.
  intros Hx. unfold round1.
  destruct (py_round_between (x * 10) a b ltac:(lra)) as [Ha Hb].
  apply IZR_le in Ha, Hb. lra.
Qed.

Lemma temp_signal_range (i : nat) (noise : R) :
  (-2 <= noise < 2)%R -> (11 <= temp_signal i noise < 25)%R.
Proof.
  intros Hn. unfold temp_signal.
  pose proof (SIN_bound (INR i * PI / 8)) as Hs. lra.
Qed.

Lemma demo_point_floats (base_time : datetime) (i : nat) (d : Draws) :
  point_temp (demo_point base_time i d)
  = Some (round1 (temp_signal i (temp_noise d))) /\
  point_feels_like (demo_point base_time i d)
  = Some (round1 (temp_signal i (temp_noise d) - 1.5)) /\
  point_wind_speed (demo_point base_time i d)
  = Some (round1 (3 + 3 * wind_random d)).
Proof. repeat split. Qed.

(** X1.  With the draws in their intervals, every synthesized point has a
    temperature in [11, 25], a feels-like temperature in [9.5, 23.5] and a
    wind speed in [3, 6], each a whole number of tenths. *)
Theorem synthesized_float_ranges (w : World) (i : nat) :
  let pts := forecast_points (snd (fst (generate_demo_data w))) in
  (i < 40)%nat ->
  draws_in_range (rng (rng_used w + i)) ->
  exists t f v : R,
    point_temp (nth i pts JNull) = Some t /\
    point_feels_like (nth i pts JNull) = Some f /\
    point_wind_speed (nth i pts JNull) = Some v /\
    (11 <= t <= 25)%R /\ (9.5 <= f <= 23.5)%R /\ (3 <= v <= 6)%R /\
    (exists a b c : Z, t = (IZR a / 10)%R /\ f = (IZR b / 10)%R /\
                       v = (IZR c / 10)%R).
Proof.
  intros pts Hi (Ht & _ & Hw). subst pts.
  rewrite demo_forecast_points, nth_forecast_list by exact Hi.
  set (d := rng (rng_used w + i)) in *.
  destruct (demo_point_floats (clock (now_reads w)) i d) as (Et & Ef & Ev).
  pose proof (temp_signal_range i _ Ht) as Hr.
  do 3 eexists.
  split; [exact Et |]. split; [exact Ef |]. split; [exact Ev |].
  split; [| split; [| split]].
  - pose proof (round1_between (temp_signal i (temp_noise d)) 110 250) as H.
    lra.
  - pose proof (round1_between (temp_signal i (temp_noise d) - 1.5) 95 235) as H.
    lra.
  - pose proof (round1_between (3 + 3 * wind_random d) 30 60) as H. lra.
  - do 3 eexists. repeat split; reflexivity.
Qed.

(** X2.  The stored feels-like temperature is the raw temperature minus 1.5
    rounded on its own, so it lies within one tenth of the stored
    temperature minus 1.5, and always below the stored temperature. *)
Theorem feels_like_near_temperature (w : World) (i : nat) :
  let pts := forecast_points (snd (fst (generate_demo_data w))) in
  (i < 40)%nat ->
  exists t f : R,
    point_temp (nth i pts JNull) = Some t /\
    point_feels_like (nth i pts JNull) = Some f /\
    (t - 1.6 <= f <= t - 1.4)%R /\ (f < t)%R.
Proof.
  intros pts Hi. subst pts.
  rewrite demo_forecast_points, nth_forecast_list by exact Hi.
  set (d := rng (rng_used w + i)).
  destruct (demo_point_floats (clock (now_reads w)) i d) as (Et & Ef & _).
  do 2 eexists. split; [exact Et |]. split; [exact Ef |].
  unfold round1. set (x := temp_signal i (temp_noise d)).
  pose proof (py_round_near (x * 10)) as [A1 A2].
  pose proof (py_round_near ((x - 1.5) * 10)) as [B1 B2].
  set (a := py_round (x * 10)) in *. set (b := py_round ((x - 1.5) * 10)) in *.
  assert (Hab : (a - 16 <= b <= a - 14)%Z).
  { assert (H1 : (IZR (a - 17) < IZR b)%R) by (rewrite minus_IZR; lra).
    assert (H2 : (IZR b < IZR (a - 13))%R) by (rewrite minus_IZR; lra).
    apply lt_IZR in H1, H2. lia. }
  destruct Hab as [L U]. apply IZR_le in L, U. rewrite minus_IZR in L, U.
  lra.
Qed.

(** X3.  For a non-negative float, [int] never exceeds [round] and falls
    short of it by at most one; so each stored humidity and pressure is the
    rounded value of its expression or one less. *)
Theorem truncation_within_one_of_rounding (w : World) (i : nat) :
  let pts := forecast_points (snd (fst (generate_demo_data w))) in
  let noise := humidity_noise (rng (rng_used w + i)) in
  (i < 40)%nat ->
  (-5 <= noise < 5)%R ->
  exists h p,
    point_humidity (nth i pts JNull) = Some h /\
    point_pressure (nth i pts JNull) = Some p /\
    (py_round (humidity_signal i noise) - 1 <= h
     <= py_round (humidity_signal i noise))%Z /\
    (py_round (pressure_signal i) - 1 <= p <= py_round (pressure_signal i))%Z.
Proof.
  intros pts noise Hi Hn. subst pts.
  rewrite demo_forecast_points, nth_forecast_list by exact Hi.
  rewrite demo_point_humidity, demo_point_pressure. fold noise.
  assert (Hgen : forall x, (0 <= x)%R ->
            (py_round x - 1 <= py_int x <= py_round x)%Z).
  { intros x Hx. destruct (py_int_nonneg x Hx) as [F1 F2].
    destruct (py_round_near x) as [R1 R2].
    assert (H1 : (IZR (py_int x - 1) < IZR (py_round x))%R)
      by (rewrite minus_IZR; lra).
    assert (H2 : (IZR (py_round x) < IZR (py_int x + 2))%R)
      by (rewrite plus_IZR; lra).
    apply lt_IZR in H1, H2. lia. }
  pose proof (humidity_signal_range i noise Hn) as Hh.
  pose proof (pressure_signal_range i) as Hp.
  do 2 eexists. split; [reflexivity |]. split; [reflexivity |].
  split; apply Hgen; lra.
Qed.

(** X4.  In a zone that keeps one offset [off] for a day either side of an
    instant [s] at or after the epoch, with [s + off] inside the supported
    range, whole epoch seconds survive the round trip between [dt] and a
    naive datetime: [fromtimestamp] decodes [s] to the datetime [s + off],
    [int(timestamp())] encodes that datetime back to [s], and decoding the
    encoded value returns the datetime again. *)
Theorem dt_round_trip (s off : Z) :
  let d := ((s + off) * 1000000)%Z in
  (0 <= s)%Z ->
  steady off (s - 86400) (s + 86400) ->
  in_datetime_range (s + off) = true ->
  fromtimestamp (JInt s) = Return d /\
  py_int (timestamp d) = s /\
  fromtimestamp (JInt (py_int (timestamp d))) = Return d.
Proof.
  intros d Hs0 Hs Hr.
  assert (Hdec : fromtimestamp (JInt s) = Return d).
  { rewrite fromtimestamp_int. unfold local. rewrite (Hs s) by lia.
    rewrite Hr. reflexivity. }
  assert (Henc : py_int (timestamp d) = s).
  { destruct (timestamp_seconds d) as [_ Hdt].
    assert (Hsec : (d / 1000000 = s + off)%Z)
      by (unfold d; apply Z.div_mul; lia).
    rewrite Hsec in Hdt.
    assert (Hmk : mktime (s + off) = s).
    { rewrite (mktime_steady (s + off) off); [lia |].
      intros u Hu. apply Hs. lia. }
    rewrite Hmk in Hdt. apply Hdt. exact Hs0. }
  split; [exact Hdec |]. split; [exact Henc |].
  rewrite Henc. exact Hdec.
Qed.

(** ** Further properties of the fetch methods *)

(** X5.  In live mode a request that succeeds is returned as it is: the call
    needs one activation, sends exactly one request, prints nothing, reads
    neither the clock nor the random source, and leaves the flag unset. *)
Theorem live_fetch_returns_response (c : Call) (w : World) (k : nat) (j : json) :
  use_demo w = false ->
  fst (http_get_json (endpoint c) w) = Return j ->
  exists w1,
    fetch (S k) c w = Some (j, w1) /\
    use_demo w1 = false /\
    requests_sent w1 = S (requests_sent w) /\
    stdout w1 = stdout w /\
    now_reads w1 = now_reads w /\
    rng_used w1 = rng_used w.
Proof.
  intros Hd Hj.
  assert (Hf : failed (fst (http_get_json (endpoint c) w)) = false)
    by (rewrite Hj; reflexivity).
  destruct (fetch_without_failure c w k Hd Hf) as (j' & Ej' & Hfetch).
  assert (j' = j) by congruence. subst j'.
  exists (snd (http_get_json (endpoint c) w)).
  split; [exact Hfetch |].
  unfold http_get_json.
  destruct (network (requests_sent w) (endpoint c)) as [| status [body |]];
    try destruct ((400 <=? status) && (status <? 600))%Z;
    simpl; repeat split; exact Hd.
Qed.

Lemma except_clause_world (c : Call) (w : World) :
  use_demo (except_clause c w) = true /\
  requests_sent (except_clause c w) = requests_sent w.
Proof. destruct c; split; reflexivity. Qed.

Lemma http_get_json_world (url : string) (w : World) :
  requests_sent (snd (http_get_json url w)) = S (requests_sent w) /\
  use_demo (snd (http_get_json url w)) = use_demo w.
Proof.
  unfold http_get_json.
  destruct (network (requests_sent w) url) as [| status [body |]];
    try destruct ((400 <=? status) && (status <? 600))%Z; split; reflexivity.
Qed.

Lemma fetch_cases (fuel : nat) (c : Call) (w w' : World) (v : json) :
  fetch fuel c w = Some (v, w') ->
  (use_demo w = true /\ (v, w') = synthesized c w) \/
  (use_demo w = false /\
   failed (fst (http_get_json (endpoint c) w)) = false /\
   fst (http_get_json (endpoint c) w) = Return v /\
   w' = snd (http_get_json (endpoint c) w)) \/
  (use_demo w = false /\
   failed (fst (http_get_json (endpoint c) w)) = true /\
   (v, w') = synthesized c
               (except_clause c (snd (http_get_json (endpoint c) w)))).
Proof.
  intros H. destruct fuel as [| fuel]; [destruct c; discriminate H |].
  destruct (use_demo w) eqn:Hd.
  { left. rewrite fetch_in_demo_mode in H by exact Hd.
    split; [reflexivity | congruence]. }
  right.
  destruct (failed (fst (http_get_json (endpoint c) w))) eqn:Hf.
  - right. destruct fuel as [| k].
    + exfalso. destruct c; simpl in *; rewrite Hd in H;
        destruct (http_get_json _ w) as [[j | e] w1]; simpl in Hf;
        discriminate.
    + rewrite fetch_after_failure in H by assumption.
      repeat split. congruence.
  - left. destruct (fetch_without_failure c w fuel Hd Hf) as (j & Ej & Hj).
    repeat split; congruence.
Qed.

(** X6.  A fetch call that returns has sent no request when the flag was
    set and exactly one when it was not: a failed request is never
    repeated. *)
Theorem fetch_sends_at_most_one_request
  (fuel : nat) (c : Call) (w w' : World) (v : json) :
  fetch fuel c w = Some (v, w') ->
  requests_sent w' = (requests_sent w + if use_demo w then 0 else 1)%nat.
Proof.
  intros H.
  destruct (fetch_cases fuel c w w' v H)
    as [(Hd & E) | [(Hd & _ & _ & E) | (Hd & _ & E)]]; rewrite Hd.
  - destruct (synthesized_world c w) as (_ & Hr & _).
    rewrite <- E in Hr. simpl in Hr. lia.
  - subst w'. destruct (http_get_json_world (endpoint c) w) as [Hr _]. lia.
  - set (w0 := except_clause c (snd (http_get_json (endpoint c) w))) in *.
    destruct (synthesized_world c w0) as (_ & Hr & _).
    rewrite <- E in Hr. simpl in Hr. rewrite Hr. subst w0.
    rewrite (proj2 (except_clause_world c _)).
    destruct (http_get_json_world (endpoint c) w) as [Hr' _]. lia.
Qed.

(** X7.  After a fetch call the flag is set exactly when it was set before
    or this call's request failed; in particular a set flag is never
    cleared. *)
Theorem fetch_flag_after (fuel : nat) (c : Call) (w w' : World) (v : json) :
  fetch fuel c w = Some (v, w') ->
  use_demo w'
  = (use_demo w || failed (fst (http_get_json (endpoint c) w)))%bool.
Proof.
  intros H.
  destruct (fetch_cases fuel c w w' v H)
    as [(Hd & E) | [(Hd & Hf & _ & E) | (Hd & Hf & E)]]; rewrite Hd.
  - destruct (synthesized_world c w) as (Hu & _ & _).
    rewrite <- E in Hu. simpl in Hu. rewrite Hu, Hd. reflexivity.
  - rewrite Hf. subst w'.
    rewrite (proj2 (http_get_json_world (endpoint c) w)). exact Hd.
  - rewrite Hf.
    set (w0 := except_clause c (snd (http_get_json (endpoint c) w))) in *.
    destruct (synthesized_world c w0) as (Hu & _ & _).
    rewrite <- E in Hu. simpl in Hu. rewrite Hu. subst w0.
    apply except_clause_world.
Qed.

Lemma demo_fetches (w : World) (k : nat) :
  use_demo w = true ->
  fetch_current_weather (S k) w = Some (demo_current, snd (generate_demo_data w)) /\
  fetch_forecast (S k) (snd (generate_demo_data w))
  = Some (snd (fst (generate_demo_data (snd (generate_demo_data w)))),
          snd (generate_demo_data (snd (generate_demo_data w)))).
Proof.
  intros Hd. split.
  - exact (fetch_in_demo_mode CurrentWeather w k Hd).
  - apply (fetch_in_demo_mode Forecast (snd (generate_demo_data w)) k).
    exact Hd.
Qed.

(** X8.  In demo mode the two fetch calls of [create_dashboard] each run
    [generate_demo_data] in full: the forecast that is used comes from the
    second clock reading and the second block of 40 draws, the forecast
    synthesized by the current-weather call is discarded. *)
Theorem demo_mode_generates_twice (w : World) (k : nat) :
  use_demo w = true ->
  exists w1 w2,
    fetch_current_weather (S k) w = Some (demo_current, w1) /\
    fetch_forecast (S k) w1
    = Some (JDict [("list",
                    JList (forecast_list (clock (S (now_reads w)))
                                         (rng_used w + 40)))], w2) /\
    now_reads w2 = (now_reads w + 2)%nat /\
    rng_used w2 = (rng_used w + 80)%nat /\
    requests_sent w2 = requests_sent w.
Proof.
  intros Hd. destruct (demo_fetches w k Hd) as [H1 H2].
  exists (snd (generate_demo_data w)),
         (snd (generate_demo_data (snd (generate_demo_data w)))).
  split; [exact H1 |]. split; [exact H2 |].
  simpl. repeat split; lia.
Qed.

(** ** Further properties of normalisation *)

Lemma process_item_demo (n i : nat) (d : Draws) :
  (i < 40)%nat ->
  process_item (demo_point (clock n) i d) = Return (demo_row (clock n) i d).
Proof.
  intros Hi. pose proof (synthesized_dt_decodes n i Hi) as Hr.
  unfold process_item, demo_point, demo_row.
  set (s := py_int (timestamp (time_point (clock n) i))) in *.
  cbn - [fromtimestamp]. rewrite fromtimestamp_int, Hr. reflexivity.
Qed.

Lemma process_items_demo (n first_draw : nat) (l : list nat) :
  (forall i, In i l -> (i < 40)%nat) ->
  process_items (map (fun i => demo_point (clock n) i (rng (first_draw + i))) l)
  = Return (map (fun i => demo_row (clock n) i (rng (first_draw + i))) l).
Proof.
  induction l as [| i l IH]; intros Hl; [reflexivity |].
  cbn [map process_items].
  rewrite process_item_demo by (apply Hl; left; reflexivity).
  rewrite IH by (intros j Hj; apply Hl; right; exact Hj).
  reflexivity.
Qed.

Lemma process_demo_forecast (n first_draw : nat) :
  process_forecast_data
    (JDict [("list", JList (forecast_list (clock n) first_draw))])
  = Return (Some (demo_table (clock n) first_draw)).
Proof.
  rewrite (process_forecast_data_list _ (forecast_list (clock n) first_draw))
    by reflexivity.
  unfold forecast_list. rewrite process_items_demo; [reflexivity |].
  intros i Hi. apply in_seq in Hi. lia.
Qed.

Lemma demo_table_length (base_time : datetime) (first_draw : nat) :
  List.length (demo_table base_time first_draw) = 40%nat.
Proof. unfold demo_table. rewrite length_map, length_seq. reflexivity. Qed.

Lemma demo_row_datetime (t0 : datetime) (off : Z) (i : nat) (d : Draws) :
  (i < 40)%nat ->
  (0 <= t0 / 1000000 - off)%Z ->
  steady off (t0 / 1000000 - off - 86400) (t0 / 1000000 - off + 421200 + 86400) ->
  row_datetime (demo_row t0 i d)
  = (t0 - t0 mod 1000000 + Z.of_nat i * 10800000000)%Z.
Proof.
  intros Hi H0 Hs. cbn [demo_row row_datetime].
  rewrite (epoch_seconds_step t0 off i Hi H0 Hs). unfold local.
  rewrite (Hs (t0 / 1000000 - off + Z.of_nat i * 10800)%Z) by lia.
  pose proof (Z.div_mod t0 1000000 ltac:(lia)) as Hdm. lia.
Qed.


(** X10.  A non-empty record from which ['list'] cannot be read makes
    [process_forecast_data] raise: [KeyError('list')] for a dict without
    that key, [TypeError] for a value that is not a dict. *)
Theorem forecast_without_list (fd : json) :
  truthy fd = true ->
  failed (getitem fd "list") = true ->
  process_forecast_data fd
  = Raise (if is_dict fd then KeyError "list" else TypeError).
Proof.
  intros Ht Hf. unfold process_forecast_data. rewrite Ht. cbn [negb].
  destruct fd as [| b | z | x | s | l | d |]; try reflexivity.
  cbn [getitem] in *. destruct (assoc "list" d); [discriminate Hf | reflexivity].
Qed.

(** X11.  A record whose ['list'] is empty is not treated as absent: it
    normalises to an empty table (not [None]), the record itself is truthy,
    and so [create_dashboard] goes on to draw with the empty table. *)
Theorem empty_list_gives_empty_table
  (fd current : json) (fuel : nat) (w w1 w2 : World) :
  getitem fd "list" = Return (JList []) ->
  fetch_current_weather fuel w = Some (current, w1) ->
  fetch_forecast fuel w1 = Some (fd, w2) ->
  truthy current = true ->
  process_forecast_data fd = Return (Some []) /\
  truthy fd = true /\
  create_dashboard fuel w
  = match draw_panels current (Some []) with
    | Raise e => Some (Raise e, w2)
    | Return _ => Some (Return (Some []), savefig w2)
    end.
Proof.
  intros Hl Hcur Hfc Hc.
  assert (Hp : process_forecast_data fd = Return (Some []))
    by (rewrite (process_forecast_data_list fd [] Hl); reflexivity).
  assert (Ht : truthy fd = true).
  { destruct fd as [| b | z | x | s | l | d |]; try discriminate Hl.
    destruct d; [discriminate Hl | reflexivity]. }
  split; [exact Hp |]. split; [exact Ht |].
  unfold create_dashboard. rewrite Hcur, Hfc, Hc, Ht, Hp. reflexivity.
Qed.

Lemma process_items_app (good rest : list json) (rows : list Row) :
  process_items good = Return rows ->
  process_items (good ++ rest)%list
  = (more <- process_items rest ;; Return (rows ++ more)%list).
Proof.
  revert rows. induction good as [| p good IH]; intros rows H.
  - injection H as <-. simpl. destruct (process_items rest); reflexivity.
  - cbn [process_items app] in *.
    destruct (process_item p) as [r | e]; cbn [bind] in *; [| discriminate H].
    destruct (process_items good) as [rs | e]; cbn [bind] in *;
      [| discriminate H].
    injection H as <-. rewrite (IH rs eq_refl).
    destruct (process_items rest); reflexivity.
Qed.

(** X12.  The first point that cannot be read decides the outcome: when the
    points before it are readable, [process_forecast_data] raises that
    point's error whatever follows it, and no partial table is returned. *)
Theorem first_bad_point_decides
  (fd : json) (good : list json) (bad : json) (rest : list json)
  (rows : list Row) (e : Exception) :
  getitem fd "list" = Return (JList (good ++ bad :: rest)%list) ->
  process_items good = Return rows ->
  process_item bad = Raise e ->
  process_forecast_data fd = Raise e.
Proof.
  intros Hl Hgood Hbad.
  rewrite (process_forecast_data_list fd _ Hl).
  rewrite (process_items_app good (bad :: rest) rows Hgood).
  cbn [process_items]. rewrite Hbad. reflexivity.
Qed.

(** ** Further properties of [create_dashboard] and the script *)

Lemma synthesized_forecast_value (w : World) :
  synthesized Forecast w
  = (JDict [("list", JList (forecast_list (clock (now_reads w)) (rng_used w)))],
     snd (generate_demo_data w)).
Proof. reflexivity. Qed.

Lemma generate_demo_data_world (w : World) :
  use_demo (snd (generate_demo_data w)) = use_demo w /\
  requests_sent (snd (generate_demo_data w)) = requests_sent w /\
  saved (snd (generate_demo_data w)) = saved w /\
  now_reads (snd (generate_demo_data w)) = S (now_reads w) /\
  rng_used (snd (generate_demo_data w)) = (rng_used w + 40)%nat.
Proof. repeat split. Qed.

Lemma dashboard_after_fetches
  (fuel : nat) (w w1 w2 : World) (current : json) (n first_draw : nat) :
  fetch_current_weather fuel w = Some (current, w1) ->
  fetch_forecast fuel w1
  = Some (JDict [("list", JList (forecast_list (clock n) first_draw))], w2) ->
  truthy current = true ->
  create_dashboard fuel w
  = match draw_panels current (Some (demo_table (clock n) first_draw)) with
    | Raise e => Some (Raise e, w2)
    | Return _ =>
        Some (Return (Some (demo_table (clock n) first_draw)), savefig w2)
    end.
Proof.
  intros Hcur Hfc Hc. unfold create_dashboard.
  rewrite Hcur, Hfc, Hc, process_demo_forecast. reflexivity.
Qed.

Lemma savefig_saved (w : World) :
  saved (savefig w)
  = (if use_demo w then demo_filename else live_filename) :: saved w /\
  use_demo (savefig w) = use_demo w /\
  requests_sent (savefig w) = requests_sent w.
Proof. repeat split. Qed.

(** X13.  In demo mode [create_dashboard] cannot stop at its guard and
    normalisation cannot fail: the outcome is decided by the drawing step
    alone, which receives the fixed current snapshot and a table of 40 rows;
    no request is sent, and on success the image is saved under the demo
    file name. *)
Theorem demo_dashboard (w : World) (k : nat) :
  use_demo w = true ->
  let rows := demo_table (clock (S (now_reads w))) (rng_used w + 40) in
  exists w2,
    create_dashboard (S k) w
    = match draw_panels demo_current (Some rows) with
      | Raise e => Some (Raise e, w2)
      | Return _ => Some (Return (Some rows), savefig w2)
      end /\
    List.length rows = 40%nat /\
    requests_sent w2 = requests_sent w /\
    saved (savefig w2) = demo_filename :: saved w.
Proof.
  intros Hd rows. destruct (demo_fetches w k Hd) as [H1 H2].
  set (w1 := snd (generate_demo_data w)) in *.
  exists (snd (generate_demo_data w1)).
  split.
  - apply (dashboard_after_fetches (S k) w w1 _ demo_current);
      [exact H1 | exact H2 | reflexivity].
  - split; [apply demo_table_length |].
    destruct (generate_demo_data_world w) as (U1 & R1 & S1 & _).
    destruct (generate_demo_data_world w1) as (U2 & R2 & S2 & _).
    fold w1 in U1, R1, S1.
    split; [congruence |].
    rewrite (proj1 (savefig_saved _)), U2, U1, Hd. congruence.
Qed.

(** X14.  When the current-weather request succeeds and the forecast request
    fails, the dashboard mixes sources: the drawing step receives the live
    current record together with a synthesized 40-row forecast, two requests
    have been sent, and the image is saved under the demo file name. *)
Theorem live_current_with_synthesized_forecast (w : World) (k : nat) (j : json) :
  use_demo w = false ->
  fst (http_get_json "/weather" w) = Return j ->
  truthy j = true ->
  failed (fst (http_get_json "/forecast" (snd (http_get_json "/weather" w))))
  = true ->
  exists rows w2,
    create_dashboard (S (S k)) w
    = match draw_panels j (Some rows) with
      | Raise e => Some (Raise e, w2)
      | Return _ => Some (Return (Some rows), savefig w2)
      end /\
    List.length rows = 40%nat /\
    use_demo w2 = true /\
    requests_sent w2 = (requests_sent w + 2)%nat /\
    saved (savefig w2) = demo_filename :: saved w.
Proof.
  intros Hd Hj Ht Hf.
  assert (Hok : failed (fst (http_get_json (endpoint CurrentWeather) w)) = false).
  { cbn [endpoint]. rewrite Hj. reflexivity. }
  destruct (fetch_without_failure CurrentWeather w (S k) Hd Hok)
    as (j' & Ej' & Hcur).
  cbn [endpoint fetch] in Ej', Hcur.
  assert (j' = j) by congruence. subst j'.
  set (w1 := snd (http_get_json "/weather" w)) in *.
  destruct (http_get_json_world "/weather" w) as [R1 U1].
  fold w1 in R1, U1.
  assert (Hd1 : use_demo w1 = false) by congruence.
  pose proof (fetch_after_failure Forecast w1 k Hd1 Hf) as Hfc.
  cbn [endpoint fetch] in Hfc.
  set (w0 := except_clause Forecast (snd (http_get_json "/forecast" w1))) in *.
  rewrite synthesized_forecast_value in Hfc.
  exists (demo_table (clock (now_reads w0)) (rng_used w0)),
         (snd (generate_demo_data w0)).
  split; [exact (dashboard_after_fetches _ _ _ _ _ _ _ Hcur Hfc Ht) |].
  split; [apply demo_table_length |].
  destruct (generate_demo_data_world w0) as (U2 & R2 & S2 & _).
  destruct (except_clause_world Forecast (snd (http_get_json "/forecast" w1)))
    as [U0 R0].
  fold w0 in U0, R0.
  destruct (http_get_json_world "/forecast" w1) as [R3 _].
  assert (Hs : saved w0 = saved w).
  { subst w0. cbn [except_clause set_use_demo print saved].
    rewrite http_get_json_saved. subst w1. apply http_get_json_saved. }
  split; [congruence |].
  split; [lia |].
  rewrite (proj1 (savefig_saved _)), U2, U0. congruence.
Qed.

Lemma process_forecast_data_none (fd : json) :
  process_forecast_data fd = Return None -> truthy fd = false.
Proof.
  unfold process_forecast_data. destruct (truthy fd); [| reflexivity].
  cbn [negb]. intros H.
  destruct (getitem fd "list") as [l | e]; cbn [bind] in H; [| discriminate H].
  destruct (iterate l) as [items | e]; cbn [bind] in H; [| discriminate H].
  destruct (process_items items); cbn [bind] in H; discriminate H.
Qed.

(** X15.  [create_dashboard] writes a file only when it returns a table:
    then exactly one file is added, named after the mode the run ended in;
    when it returns [None] or raises, nothing has been saved. *)
Theorem dashboard_saves_only_on_success
  (fuel : nat) (w w' : World) (r : result (option DataFrame)) :
  create_dashboard fuel w = Some (r, w') ->
  match r with
  | Return (Some _) =>
      saved w' = (if use_demo w' then demo_filename else live_filename) :: saved w
  | _ => saved w' = saved w
  end.
Proof.
  unfold create_dashboard. intros H.
  destruct (fetch_current_weather fuel w) as [[current w1] |] eqn:Hcur;
    [| discriminate H].
  destruct (fetch_forecast fuel w1) as [[forecast w2] |] eqn:Hfc;
    [| discriminate H].
  assert (Hs : saved w2 = saved w).
  { rewrite (fetch_saved fuel Forecast w1 w2 forecast Hfc).
    exact (fetch_saved fuel CurrentWeather w w1 current Hcur). }
  destruct (negb (truthy current) || negb (truthy forecast))%bool eqn:Hg.
  { injection H as <- <-. exact Hs. }
  destruct (process_forecast_data forecast) as [df | e] eqn:Hp.
  - destruct (draw_panels current df) as [u | e].
    + injection H as <- <-. destruct df as [rows |].
      * rewrite (proj1 (savefig_saved w2)), Hs. reflexivity.
      * apply process_forecast_data_none in Hp.
        apply orb_false_iff in Hg. destruct Hg as [_ Hg].
        rewrite Hp in Hg. discriminate Hg.
    + injection H as <- <-. exact Hs.
  - injection H as <- <-. exact Hs.
Qed.

(** X16.  The guard also covers the current record: when the current-weather
    call delivers an empty or absent value, [create_dashboard] returns [None]
    after the forecast has been fetched all the same, and without
    normalising, drawing or saving. *)
Theorem absent_current_returns_none
  (current forecast : json) (fuel : nat) (w w1 w2 : World) :
  truthy current = false ->
  fetch_current_weather fuel w = Some (current, w1) ->
  fetch_forecast fuel w1 = Some (forecast, w2) ->
  create_dashboard fuel w
  = Some (Return None, print "Failed to fetch weather data." w2) /\
  saved (print "Failed to fetch weather data." w2) = saved w.
Proof.
  intros Hc Hcur Hfc. split.
  - unfold create_dashboard. rewrite Hcur, Hfc, Hc. reflexivity.
  - cbn [print saved].
    rewrite (fetch_saved fuel Forecast w1 w2 forecast Hfc).
    exact (fetch_saved fuel CurrentWeather w w1 current Hcur).
Qed.

Lemma fetch_budget (c : Call) (w : World) (k : nat) :
  (exists r, fetch 2 c w = Some r) /\ fetch (S (S k)) c w = fetch 2 c w.
Proof.
  destruct (use_demo w) eqn:Hd.
  { rewrite !fetch_in_demo_mode by exact Hd. split; [eexists |]; reflexivity. }
  destruct (failed (fst (http_get_json (endpoint c) w))) eqn:Hf.
  - rewrite !fetch_after_failure by assumption.
    split; [eexists |]; reflexivity.
  - destruct (fetch_without_failure c w (S k) Hd Hf) as (j & Ej & Hj).
    destruct (fetch_without_failure c w 1 Hd Hf) as (j' & Ej' & Hj').
    rewrite Hj, Hj'. split; [eexists; reflexivity | congruence].
Qed.

(** X17.  [create_dashboard] and the script always come to an end: a budget
    of two nested activations per fetch call yields their result, and a
    larger budget yields the same one. *)
Theorem dashboard_terminates (w : World) (k : nat) :
  (exists r, create_dashboard 2 w = Some r) /\
  create_dashboard (S (S k)) w = create_dashboard 2 w /\
  (exists r, main 2 = Some r) /\
  main (S (S k)) = main 2.
Proof.
  assert (Hcd : forall w0,
            (exists r, create_dashboard 2 w0 = Some r) /\
            create_dashboard (S (S k)) w0 = create_dashboard 2 w0).
  { intros w0. unfold create_dashboard.
    destruct (fetch_budget CurrentWeather w0 k) as [[[c1 w1] E1] B1].
    cbn [fetch] in E1, B1. rewrite B1, E1.
    destruct (fetch_budget Forecast w1 k) as [[[c2 w2] E2] B2].
    cbn [fetch] in E2, B2. rewrite B2, E2.
    split; [| reflexivity].
    destruct (negb (truthy c1) || negb (truthy c2))%bool; [eexists; reflexivity |].
    destruct (process_forecast_data c2) as [df | e]; [| eexists; reflexivity].
    destruct (draw_panels c1 df); eexists; reflexivity. }
  destruct (Hcd w) as [T1 B1]. destruct (Hcd initial_world) as [[[r w'] T2] B2].
  split; [exact T1 |]. split; [exact B1 |]. split.
  - unfold main. rewrite T2.
    destruct r as [[rows |] | e]; eexists; reflexivity.
  - unfold main. rewrite B2. reflexivity.
Qed.

(** X18.  A run whose first request fails ends in demo mode after that one
    request: the forecast is never requested, and when drawing succeeds on
    what this run hands to it (the fixed current snapshot and the table
    synthesized from the second clock reading and draws 40 to 79) the script
    returns normally with exactly the demo image saved. *)
Theorem offline_run (k : nat) :
  failed (fst (http_get_json "/weather" initial_world)) = true ->
  draw_panels demo_current (Some (demo_table (clock 1) 40)) = Return tt ->
  exists w,
    main (S (S k)) = Some (Return tt, w) /\
    use_demo w = true /\
    requests_sent w = 1%nat /\
    saved w = [demo_filename].
Proof.
  intros Hf Hdraw.
  pose proof (fetch_after_failure CurrentWeather initial_world k eq_refl Hf)
    as Hcur.
  cbn [endpoint fetch] in Hcur.
  set (w0 := except_clause CurrentWeather
               (snd (http_get_json "/weather" initial_world))) in *.
  assert (Hsyn : synthesized CurrentWeather w0
                 = (demo_current, snd (generate_demo_data w0))) by reflexivity.
  rewrite Hsyn in Hcur.
  set (w1 := snd (generate_demo_data w0)) in *.
  destruct (except_clause_world CurrentWeather
              (snd (http_get_json "/weather" initial_world))) as [U0 R0].
  fold w0 in U0, R0.
  destruct (http_get_json_world "/weather" initial_world) as [R00 _].
  destruct (generate_demo_data_world w0) as (U1 & R1 & S1 & _).
  fold w1 in U1, R1, S1.
  assert (Hd1 : use_demo w1 = true) by congruence.
  pose proof (fetch_in_demo_mode Forecast w1 (S k) Hd1) as Hfc.
  cbn [fetch] in Hfc. rewrite synthesized_forecast_value in Hfc.
  set (w2 := snd (generate_demo_data w1)) in *.
  destruct (generate_demo_data_world w1) as (U2 & R2 & S2 & _).
  fold w2 in U2, R2, S2.
  pose proof (dashboard_after_fetches _ _ _ _ _ _ _ Hcur Hfc eq_refl) as Hcd.
  assert (Hcount : now_reads w1 = 1%nat /\ rng_used w1 = 40%nat).
  { subst w1 w0. unfold http_get_json.
    destruct (network (requests_sent initial_world) "/weather")
      as [| status [body |]];
      try destruct ((400 <=? status) && (status <? 600))%Z;
      split; reflexivity. }
  destruct Hcount as [Hn Hr]. rewrite Hn, Hr in Hcd.
  rewrite Hdraw in Hcd.
  exists (print "Dashboard generation complete!"
            (print "WEATHER STATISTICS SUMMARY" (savefig w2))).
  split; [unfold main; rewrite Hcd; reflexivity |].
  cbn [print use_demo requests_sent saved].
  destruct (savefig_saved w2) as (Sv & Uv & Rv).
  assert (Hs0 : saved w0 = []).
  { subst w0. cbn [except_clause set_use_demo print saved].
    rewrite http_get_json_saved. reflexivity. }
  split; [congruence |]. split.
  - rewrite Rv, R2, R1, R0, R00. reflexivity.
  - rewrite Sv, U2, Hd1, S2, S1, Hs0. reflexivity.
Qed.

End WeatherDashboard.

(** ** Daily grouping *)

Section DailyGrouping.

Local Open Scope R_scope.

Lemma insert_key_In (k x : Z) (ks : list Z) :
  In x (insert_key k ks) <-> x = k \/ In x ks.
Proof.
  induction ks as [| k' ks IH]; simpl.
  - intuition.
  - destruct (k <? k')%Z eqn:Hlt; [simpl; intuition |].
    destruct (k =? k')%Z eqn:Heq.
    + apply Z.eqb_eq in Heq. subst k'. simpl. intuition.
    + simpl. rewrite IH. intuition.
Qed.

Lemma insert_key_sorted (k : Z) (ks : list Z) :
  StronglySorted Z.lt ks -> StronglySorted Z.lt (insert_key k ks).
Proof.
  induction ks as [| k' ks IH]; intros Hs; simpl.
  - constructor; constructor.
  - apply StronglySorted_inv in Hs. destruct Hs as [Hs Hall].
    destruct (k <? k')%Z eqn:Hlt.
    + apply Z.ltb_lt in Hlt. constructor.
      * constructor; assumption.
      * constructor; [exact Hlt |].
        eapply Forall_impl; [| exact Hall]. intros a Ha. simpl in Ha. lia.
    + destruct (k =? k')%Z eqn:Heq.
      * constructor; assumption.
      * apply Z.ltb_ge in Hlt. apply Z.eqb_neq in Heq.
        constructor; [apply IH; exact Hs |].
        apply Forall_forall. intros x Hx. apply insert_key_In in Hx.
        destruct Hx as [-> | Hx]; [lia |].
        rewrite Forall_forall in Hall. apply Hall. exact Hx.
Qed.

Lemma group_keys_sorted (keys : list Z) : StronglySorted Z.lt (group_keys keys).
Proof.
  induction keys as [| k keys IH]; simpl.
  - constructor.
  - apply insert_key_sorted. exact IH.
Qed.

Lemma group_keys_In (keys : list Z) (x : Z) :
  In x (group_keys keys) <-> In x keys.
Proof.
  induction keys as [| k keys IH]; simpl; [tauto |].
  rewrite insert_key_In, IH. intuition.
Qed.

Lemma sorted_keys_NoDup (ks : list Z) : StronglySorted Z.lt ks -> NoDup ks.
Proof.
  induction 1 as [| k ks Hs IH Hall]; constructor; [| exact IH].
  intros Hin. rewrite Forall_forall in Hall. specialize (Hall k Hin). lia.
Qed.

Lemma group_keys_of_sorted (ks : list Z) :
  StronglySorted Z.lt ks -> group_keys ks = ks.
Proof.
  induction 1 as [| k ks Hs IH Hall]; [reflexivity |].
  simpl. rewrite IH. destruct ks as [| k' ks']; [reflexivity |].
  simpl. inversion Hall as [| ? ? Hk _]; subst.
  apply Z.ltb_lt in Hk. rewrite Hk. reflexivity.
Qed.

Lemma group_keys_length (keys : list Z) :
  NoDup keys -> List.length (group_keys keys) = List.length keys.
Proof.
  induction 1 as [| k keys Hnin Hnd IH]; [reflexivity |].
  simpl. rewrite <- IH.
  assert (Hk : ~ In k (group_keys keys)) by (rewrite group_keys_In; exact Hnin).
  clear - Hk. induction (group_keys keys) as [| k' ks IHk]; [reflexivity |].
  simpl. destruct (k <? k')%Z; [reflexivity |].
  destruct (k =? k')%Z eqn:Heq.
  - apply Z.eqb_eq in Heq. subst k'. exfalso. apply Hk. left. reflexivity.
  - simpl. f_equal. apply IHk. intros Hin. apply Hk. right. exact Hin.
Qed.

Lemma group_values_In (k : Z) (kvs : list (Z * R)) (t : R) :
  In t (group_values k kvs) <-> In (k, t) kvs.
Proof.
  unfold group_values. rewrite in_map_iff. split.
  - intros ([k' t'] & Ht & Hin). apply filter_In in Hin.
    destruct Hin as [Hin Hk]. simpl in *. apply Z.eqb_eq in Hk.
    subst. exact Hin.
  - intros Hin. exists (k, t). split; [reflexivity |].
    apply filter_In. split; [exact Hin | apply Z.eqb_refl].
Qed.

Lemma group_values_single (k : Z) (t : R) (kvs : list (Z * R)) :
  NoDup (map fst kvs) -> In (k, t) kvs -> group_values k kvs = [t].
Proof.
  unfold group_values.
  induction kvs as [| [k' t'] kvs IH]; intros Hnd Hin; [contradiction |].
  simpl in Hnd. inversion Hnd as [| ? ? Hnin Hnd']; subst.
  assert (Hnone : forall v, ~ In (k', v) kvs).
  { intros v Hv. apply Hnin. apply in_map_iff. exists (k', v). auto. }
  destruct Hin as [E | Hin].
  - injection E as -> ->. simpl. rewrite Z.eqb_refl. simpl. f_equal.
    destruct (map snd (filter (fun kv => (fst kv =? k)%Z) kvs)) as [| v vs] eqn:Ev;
      [reflexivity |].
    exfalso. apply (Hnone v). apply group_values_In.
    unfold group_values. rewrite Ev. left. reflexivity.
  - simpl. destruct (k' =? k)%Z eqn:Hk.
    + apply Z.eqb_eq in Hk. subst k'. exfalso. exact (Hnone t Hin).
    + apply IH; assumption.
Qed.

Lemma fold_min_bounds (xs : list R) :
  forall a, fold_left Rmin xs a <= a /\
            forall t, In t xs -> fold_left Rmin xs a <= t.
Proof.
  induction xs as [| x xs IH]; intros a; simpl.
  - split; [lra | contradiction].
  - destruct (IH (Rmin a x)) as [H1 H2].
    pose proof (Rmin_l a x). pose proof (Rmin_r a x).
    split; [lra |]. intros t [<- | Ht]; [lra | apply H2; exact Ht].
Qed.

Lemma fold_max_bounds (xs : list R) :
  forall a, a <= fold_left Rmax xs a /\
            forall t, In t xs -> t <= fold_left Rmax xs a.
Proof.
  induction xs as [| x xs IH]; intros a; simpl.
  - split; [lra | contradiction].
  - destruct (IH (Rmax a x)) as [H1 H2].
    pose proof (Rmax_l a x). pose proof (Rmax_r a x).
    split; [lra |]. intros t [<- | Ht]; [lra | apply H2; exact Ht].
Qed.

Lemma col_min_max_bounds (l : list R) (t : R) :
  In t l -> col_min l <= t <= col_max l.
Proof.
  destruct l as [| x xs]; [contradiction |]. intros Hin. simpl.
  destruct (fold_min_bounds xs x) as [m1 m2].
  destruct (fold_max_bounds xs x) as [M1 M2].
  destruct Hin as [<- | Hin]; [lra |].
  split; [apply m2 | apply M2]; exact Hin.
Qed.

Lemma col_sum_bounds (l : list R) (m M : R) :
  (forall t, In t l -> m <= t <= M) ->
  m * INR (List.length l) <= col_sum l <= M * INR (List.length l).
Proof.
  induction l as [| x xs IH]; intros Hb.
  - simpl. lra.
  - change (col_sum (x :: xs)) with (x + col_sum xs).
    change (List.length (x :: xs)) with (S (List.length xs)). rewrite S_INR.
    destruct (Hb x (or_introl eq_refl)) as [Hx1 Hx2].
    destruct IH as [H1 H2]; [intros t Ht; apply Hb; right; exact Ht |].
    lra.
Qed.

Lemma col_mean_between (l : list R) :
  l <> [] -> col_min l <= col_mean l <= col_max l.
Proof.
  intros Hne.
  pose proof (col_sum_bounds l (col_min l) (col_max l)
                (fun t Ht => col_min_max_bounds l t Ht)) as [Hlo Hhi].
  assert (Hn : 0 < INR (List.length l)).
  { destruct l; [contradiction |]. apply lt_0_INR. simpl. lia. }
  unfold col_mean. split.
  - apply Rmult_le_reg_r with (r := INR (List.length l)); [exact Hn |].
    unfold Rdiv. rewrite Rmult_assoc, Rinv_l by lra. lra.
  - apply Rmult_le_reg_r with (r := INR (List.length l)); [exact Hn |].
    unfold Rdiv. rewrite Rmult_assoc, Rinv_l by lra. lra.
Qed.

Lemma date_temperature_keys (df : DataFrame) (col : list (Z * R)) :
  date_temperature df = Some col ->
  map fst col = map (fun r => date_of (row_datetime r)) df.
Proof.
  revert col. induction df as [| r df IH]; intros col H; simpl in H.
  - injection H as <-. reflexivity.
  - destruct (as_float (temperature r)) as [t |]; [| discriminate H].
    destruct (date_temperature df) as [col' |]; [| discriminate H].
    injection H as <-. simpl. f_equal. apply IH. reflexivity.
Qed.

Lemma groupby_agg_dates (kvs : list (Z * R)) :
  map ds_date (groupby_agg kvs) = group_keys (map fst kvs).
Proof.
  unfold groupby_agg. rewrite map_map. simpl. apply map_id.
Qed.

Lemma groupby_agg_row (kvs : list (Z * R)) (s : DailyStats) :
  In s (groupby_agg kvs) ->
  In (ds_date s) (map fst kvs) /\
  s = mkDaily (ds_date s)
              (col_min (group_values (ds_date s) kvs))
              (col_max (group_values (ds_date s) kvs))
              (col_mean (group_values (ds_date s) kvs)).
Proof.
  unfold groupby_agg. intros Hs. apply in_map_iff in Hs.
  destruct Hs as (k & <- & Hk). apply (proj1 (group_keys_In _ _)) in Hk.
  split; [exact Hk | reflexivity].
Qed.

Lemma groupby_agg_one_row_per_key (kvs : list (Z * R)) :
  StronglySorted Z.lt (map fst kvs) ->
  groupby_agg kvs = map (fun kv => mkDaily (fst kv) (snd kv) (snd kv) (snd kv)) kvs.
Proof.
  intros Hs. unfold groupby_agg.
  rewrite (group_keys_of_sorted _ Hs), map_map.
  apply map_ext_in. intros [k t] Hin. simpl.
  rewrite (group_values_single k t kvs (sorted_keys_NoDup _ Hs) Hin).
  unfold col_mean. simpl. f_equal. field.
Qed.

(** C7 (amended).  For a non-empty table with a numeric temperature column,
    the daily grouping yields a non-empty table of rows [date, min_temp,
    max_temp, mean_temp]: its dates are exactly the dates of the input rows,
    each once, in ascending order; each row aggregates the temperatures of
    the input rows of its date, [min_temp] and [max_temp] bound every one of
    them, and the mean taken in exact arithmetic lies between [min_temp] and
    [max_temp].  (The binary64 mean can leave that interval by a rounding
    error, see [float_mean_exceeds_max].) *)
Theorem daily_stats_grouping (df : DataFrame) (col : list (Z * R)) :
  df <> [] ->
  date_temperature df = Some col ->
  exists out,
    daily_stats df = Some out /\
    out <> [] /\
    StronglySorted Z.lt (map ds_date out) /\
    (forall d, In d (map ds_date out)
               <-> exists r, In r df /\ date_of (row_datetime r) = d) /\
    forall s, In s out ->
      let g := group_values (ds_date s) col in
      g <> [] /\
      (forall t, In t g <-> In (ds_date s, t) col) /\
      min_temp s = col_min g /\
      max_temp s = col_max g /\
      mean_temp s = col_mean g /\
      (forall t, In t g -> min_temp s <= t <= max_temp s) /\
      min_temp s <= mean_temp s <= max_temp s.
Proof.
  intros Hne Hcol. unfold daily_stats. rewrite Hcol. cbn [option_map].
  exists (groupby_agg col).
  pose proof (date_temperature_keys df col Hcol) as Hkeys.
  assert (Hdates : forall d, In d (map ds_date (groupby_agg col))
                     <-> exists r, In r df /\ date_of (row_datetime r) = d).
  { intros d. rewrite groupby_agg_dates, group_keys_In, Hkeys, in_map_iff.
    split; intros (r & H1 & H2); exists r; auto. }
  split; [reflexivity |]. split; [| split; [| split]].
  - destruct df as [| r df]; [contradiction |].
    intros Hout.
    assert (Hin : In (date_of (row_datetime r)) (map ds_date (groupby_agg col))).
    { apply Hdates. exists r. split; [left |]; reflexivity. }
    rewrite Hout in Hin. exact Hin.
  - rewrite groupby_agg_dates. apply group_keys_sorted.
  - exact Hdates.
  - intros s Hs. set (g := group_values (ds_date s) col).
    destruct (groupby_agg_row col s Hs) as [Hk Es]. fold g in Es.
    assert (Hg : g <> []).
    { apply in_map_iff in Hk. destruct Hk as ([k t] & Ek & Hin).
      simpl in Ek. subst k. intros Hg.
      apply (group_values_In (ds_date s) col t) in Hin.
      fold g in Hin. rewrite Hg in Hin. exact Hin. }
    assert (Emin : min_temp s = col_min g) by (rewrite Es; reflexivity).
    assert (Emax : max_temp s = col_max g) by (rewrite Es; reflexivity).
    assert (Emean : mean_temp s = col_mean g) by (rewrite Es; reflexivity).
    split; [exact Hg |].
    split; [intros t; apply group_values_In |].
    split; [exact Emin |]. split; [exact Emax |]. split; [exact Emean |].
    rewrite Emin, Emax, Emean. split.
    + intros t Ht. apply col_min_max_bounds. exact Ht.
    + apply col_mean_between. exact Hg.
Qed.

(** C8.  On a table with at most one row per calendar date (and a numeric
    temperature column) every group is a singleton: the result has one row
    per input row with [min_temp = max_temp = mean_temp] the temperature of
    that date's row, and grouping the result again by date, on any of its
    value columns, returns it unchanged. *)
Theorem daily_stats_regrouping (df : DataFrame) (col : list (Z * R)) :
  date_temperature df = Some col ->
  NoDup (map (fun r => date_of (row_datetime r)) df) ->
  exists out,
    daily_stats df = Some out /\
    List.length out = List.length df /\
    (forall s, In s out ->
       min_temp s = mean_temp s /\ max_temp s = mean_temp s /\
       group_values (ds_date s) col = [mean_temp s] /\
       In (ds_date s, mean_temp s) col) /\
    (forall d t, In (d, t) col -> In (mkDaily d t t t) out) /\
    regroup mean_temp out = out /\
    regroup min_temp out = out /\
    regroup max_temp out = out.
Proof.
  intros Hcol Hnd. unfold daily_stats. rewrite Hcol. cbn [option_map].
  exists (groupby_agg col).
  pose proof (date_temperature_keys df col Hcol) as Hkeys.
  rewrite <- Hkeys in Hnd.
  assert (Hrow : forall s, In s (groupby_agg col) ->
            exists t, In (ds_date s, t) col /\
                      group_values (ds_date s) col = [t] /\
                      s = mkDaily (ds_date s) t t t).
  { intros s Hs. destruct (groupby_agg_row col s Hs) as [Hk Es].
    apply in_map_iff in Hk. destruct Hk as ([k t] & Ek & Hin).
    simpl in Ek. subst k. exists t. split; [exact Hin |].
    pose proof (group_values_single _ t col Hnd Hin) as Hg.
    split; [exact Hg |].
    rewrite Hg in Es. unfold col_mean in Es. simpl in Es.
    rewrite Es. simpl. f_equal. field. }
  assert (Hregroup : forall c : DailyStats -> R,
            (forall s, In s (groupby_agg col) ->
                       s = mkDaily (ds_date s) (c s) (c s) (c s)) ->
            regroup c (groupby_agg col) = groupby_agg col).
  { intros c Hc. unfold regroup.
    rewrite groupby_agg_one_row_per_key.
    - rewrite map_map. simpl.
      rewrite <- (map_id (groupby_agg col)) at 2.
      apply map_ext_in. intros s Hs. symmetry. apply Hc. exact Hs.
    - rewrite map_map. simpl.
      change (map (fun x => ds_date x) (groupby_agg col))
        with (map ds_date (groupby_agg col)).
      rewrite groupby_agg_dates. apply group_keys_sorted. }
  split; [reflexivity |].
  split.
  { rewrite <- (length_map ds_date), groupby_agg_dates.
    rewrite (group_keys_length _ Hnd), length_map.
    rewrite <- (length_map fst col), Hkeys, length_map. reflexivity. }
  split.
  { intros s Hs. destruct (Hrow s Hs) as (t & Hin & Hg & Es).
    rewrite Es. simpl. auto. }
  split.
  { intros d t Hin. unfold groupby_agg. apply in_map_iff. exists d. split.
    - rewrite (group_values_single d t col Hnd Hin).
      unfold col_mean. simpl. f_equal. field.
    - apply group_keys_In. apply in_map_iff. exists (d, t). auto. }
  repeat split; apply Hregroup; intros s Hs;
    destruct (Hrow s Hs) as (t & _ & _ & Es); rewrite Es; reflexivity.
Qed.

(** ** Further properties of the daily grouping *)

Lemma list_sum_cons (n : nat) (l : list nat) :
  list_sum (n :: l) = (n + list_sum l)%nat.
Proof. reflexivity. Qed.

Lemma key_hits_once (a : Z) (ks : list Z) :
  NoDup ks -> In a ks ->
  list_sum (map (fun k => if (a =? k)%Z then 1%nat else 0%nat) ks) = 1%nat.
Proof.
  induction 1 as [| k ks Hnin Hnd IH]; intros Hin; [contradiction |].
  cbn [map]. rewrite list_sum_cons. destruct (a =? k)%Z eqn:E.
  - apply Z.eqb_eq in E. subst k.
    assert (Hz : list_sum (map (fun k => if (a =? k)%Z then 1%nat else 0%nat) ks)
                 = 0%nat).
    { clear - Hnin. induction ks as [| k ks IHk]; [reflexivity |].
      cbn [map]. rewrite list_sum_cons. destruct (a =? k)%Z eqn:E.
      - apply Z.eqb_eq in E. subst k. exfalso. apply Hnin. left. reflexivity.
      - apply IHk. intros H. apply Hnin. right. exact H. }
    rewrite Hz. reflexivity.
  - apply Z.eqb_neq in E. destruct Hin as [-> | Hin]; [contradiction |].
    rewrite (IH Hin). reflexivity.
Qed.

Lemma group_sizes_sum (ks : list Z) (kvs : list (Z * R)) :
  NoDup ks ->
  (forall kv, In kv kvs -> In (fst kv) ks) ->
  list_sum (map (fun k => List.length (group_values k kvs)) ks)
  = List.length kvs.
Proof.
  intros Hnd. induction kvs as [| [a t] kvs IH]; intros Hcover.
  - unfold group_values. simpl. clear. induction ks; simpl; auto.
  - assert (Hstep : forall k,
              List.length (group_values k ((a, t) :: kvs))
              = ((if (a =? k)%Z then 1 else 0)
                 + List.length (group_values k kvs))%nat).
    { intros k. unfold group_values. simpl. destruct (a =? k)%Z; reflexivity. }
    rewrite (map_ext _ _ Hstep).
    assert (Hsplit : forall (f g : Z -> nat) (l : list Z),
              list_sum (map (fun k => (f k + g k)%nat) l)
              = (list_sum (map f l) + list_sum (map g l))%nat).
    { intros f g l. induction l as [| x l IHl]; [reflexivity |].
      cbn [map]. rewrite !list_sum_cons, IHl. lia. }
    rewrite Hsplit, IH.
    + rewrite (key_hits_once a ks Hnd (Hcover (a, t) (or_introl eq_refl))).
      reflexivity.
    + intros kv Hkv. apply Hcover. right. exact Hkv.
Qed.

(** X19.  The daily groups partition the table: every row is counted in
    exactly one day, so the group sizes add up to the number of rows. *)
Theorem daily_groups_partition_rows (df : DataFrame) (col : list (Z * R)) :
  date_temperature df = Some col ->
  exists out,
    daily_stats df = Some out /\
    list_sum (map (fun s => List.length (group_values (ds_date s) col)) out)
    = List.length df.
Proof.
  intros Hcol. unfold daily_stats. rewrite Hcol. cbn [option_map].
  exists (groupby_agg col). split; [reflexivity |].
  unfold groupby_agg. rewrite map_map. cbn [ds_date].
  rewrite group_sizes_sum.
  - rewrite <- (length_map fst col), (date_temperature_keys df col Hcol).
    apply length_map.
  - apply sorted_keys_NoDup, group_keys_sorted.
  - intros kv Hkv. apply group_keys_In. apply in_map. exact Hkv.
Qed.

Lemma fold_min_attained (xs : list R) :
  forall a, In (fold_left Rmin xs a) (a :: xs).
Proof.
  induction xs as [| x xs IH]; intros a; [left; reflexivity |].
  cbn [fold_left]. destruct (IH (Rmin a x)) as [E | Hin].
  - rewrite <- E. apply Rmin_case; [left | right; left]; reflexivity.
  - right. right. exact Hin.
Qed.

Lemma fold_max_attained (xs : list R) :
  forall a, In (fold_left Rmax xs a) (a :: xs).
Proof.
  induction xs as [| x xs IH]; intros a; [left; reflexivity |].
  cbn [fold_left]. destruct (IH (Rmax a x)) as [E | Hin].
  - rewrite <- E. apply Rmax_case; [left | right; left]; reflexivity.
  - right. right. exact Hin.
Qed.

(** X20.  The minimum and the maximum of each day are attained: each is the
    temperature of some row of that day. *)
Theorem daily_extremes_attained (df : DataFrame) (col : list (Z * R)) :
  date_temperature df = Some col ->
  exists out,
    daily_stats df = Some out /\
    forall s, In s out ->
      In (ds_date s, min_temp s) col /\ In (ds_date s, max_temp s) col.
Proof.
  intros Hcol. unfold daily_stats. rewrite Hcol. cbn [option_map].
  exists (groupby_agg col). split; [reflexivity |].
  intros s Hs. destruct (groupby_agg_row col s Hs) as [Hk Es].
  set (g := group_values (ds_date s) col) in *.
  assert (Hg : exists x xs, g = x :: xs).
  { apply in_map_iff in Hk. destruct Hk as ([k t] & Ek & Hin).
    simpl in Ek. subst k.
    apply (group_values_In (ds_date s) col t) in Hin. fold g in Hin.
    destruct g as [| x xs]; [contradiction | eauto]. }
  destruct Hg as (x & xs & Eg).
  assert (Emin : min_temp s = col_min g) by (rewrite Es; reflexivity).
  assert (Emax : max_temp s = col_max g) by (rewrite Es; reflexivity).
  rewrite Emin, Emax. split; apply group_values_In; fold g; rewrite Eg.
  - apply fold_min_attained.
  - apply fold_max_attained.
Qed.

End DailyGrouping.

(** ** Days covered by a synthesized forecast *)

Section SynthesizedDays.

Variable zone : Z -> Offset.
Variable wall_clock : nat -> Reading.
Variable rng : nat -> Draws.

Lemma date_temperature_demo (t0 : datetime) (first_draw : nat) (l : list nat) :
  date_temperature
    (map (fun i => demo_row zone t0 i (rng (first_draw + i))) l)
  = Some (map (fun i =>
                 (date_of (row_datetime
                             (demo_row zone t0 i (rng (first_draw + i)))),
                  round1 (temp_signal i (temp_noise (rng (first_draw + i))))))
              l).
Proof.
  induction l as [| i l IH]; [reflexivity |].
  cbn [map date_temperature]. rewrite IH. reflexivity.
Qed.

Lemma day_of_point (T : Z) (i : nat) :
  (i < 40)%nat ->
  (T / 86400000000 <= date_of (T + Z.of_nat i * 10800000000)%Z
   <= T / 86400000000 + 5)%Z.
Proof.
  intros Hi. unfold date_of. split.
  - apply Z.div_le_mono; lia.
  - rewrite <- (Z.div_add T 5 86400000000) by lia.
    apply Z.div_le_mono; lia.
Qed.

Lemma day_of_eighth_point (T : Z) (j : nat) :
  date_of (T + Z.of_nat (8 * j) * 10800000000)%Z
  = (T / 86400000000 + Z.of_nat j)%Z.
Proof.
  unfold date_of.
  replace (T + Z.of_nat (8 * j) * 10800000000)%Z
    with (T + Z.of_nat j * 86400000000)%Z by lia.
  apply Z.div_add. lia.
Qed.

(** X21.  With the clock at or after the epoch and a zone that keeps one
    offset from a day before the first point to a day after the last, the
    40 points of a synthesized forecast, three hours apart, fall on five or
    six calendar days: the daily table computed from the normalised
    forecast has five or six rows. *)
Theorem synthesized_forecast_days (w : World) (off : Z) :
  let t0 := clock wall_clock (now_reads w) in
  let u0 := (t0 / 1000000 - off)%Z in
  (0 <= u0)%Z ->
  steady zone off (u0 - 86400) (u0 + 421200 + 86400) ->
  exists rows out,
    process_forecast_data zone
      (snd (fst (generate_demo_data zone wall_clock rng w)))
    = Return (Some rows) /\
    daily_stats rows = Some out /\
    (5 <= List.length out <= 6)%nat.
Proof.
  intros t0 u0 H0 Hs.
  exists (demo_table zone rng t0 (rng_used w)).
  unfold daily_stats, demo_table.
  rewrite date_temperature_demo. cbn [option_map].
  eexists. split; [apply process_demo_forecast |]. split; [reflexivity |].
  rewrite <- (length_map ds_date), groupby_agg_dates, map_map. cbn [fst].
  set (T := (t0 - t0 mod 1000000)%Z).
  set (q := (T / 86400000000)%Z).
  rewrite (map_ext_in _ (fun i => date_of (T + Z.of_nat i * 10800000000)%Z))
    by (intros i Hi; apply in_seq in Hi;
        rewrite (demo_row_datetime zone t0 off) by (try assumption; lia);
        reflexivity).
  set (keys := map (fun i => date_of (T + Z.of_nat i * 10800000000)%Z) (seq 0 40)).
  pose proof (sorted_keys_NoDup _ (group_keys_sorted keys)) as Hnd.
  split.
  - assert (Hfive : NoDup (map (fun j => (q + Z.of_nat j)%Z) (seq 0 5))).
    { cbn [seq map].
      repeat (constructor; [cbn [In]; intros H; intuition lia |]).
      constructor. }
    pose proof (NoDup_incl_length Hfive (l' := group_keys keys)) as Hlen.
    rewrite length_map, length_seq in Hlen. apply Hlen.
    intros x Hx. apply in_map_iff in Hx. destruct Hx as (j & <- & Hj).
    apply in_seq in Hj. apply group_keys_In. subst keys.
    apply in_map_iff. exists (8 * j)%nat. split.
    + apply day_of_eighth_point.
    + apply in_seq. lia.
  - pose proof (NoDup_incl_length Hnd
                  (l' := map (fun j => (q + Z.of_nat j)%Z) (seq 0 6))) as Hlen.
    rewrite length_map, length_seq in Hlen. apply Hlen.
    intros x Hx. apply (proj1 (group_keys_In keys x)) in Hx. subst keys.
    apply in_map_iff in Hx. destruct Hx as (i & <- & Hi).
    apply in_seq in Hi.
    pose proof (day_of_point T i ltac:(lia)) as Hday. fold q in Hday.
    apply in_map_iff.
    exists (Z.to_nat (date_of (T + Z.of_nat i * 10800000000)%Z - q)). split.
    + lia.
    + apply in_seq. lia.
Qed.

End SynthesizedDays.

(** ** Truncation against rounding *)

Lemma humidity_signal_0 (noise : R) :
  humidity_signal 0 noise = (60 + noise)%R.
Proof.
  unfold humidity_signal. simpl INR.
  replace (0 * PI / 12)%R with 0%R by lra. rewrite sin_0. lra.
Qed.

Lemma pressure_signal_25 :
  (1002 + 1 / 2 < pressure_signal 25 < 1003)%R.
Proof.
  unfold pressure_signal. rewrite INR_IZR_INZ. simpl Z.of_nat.
  replace (25 * PI / 20)%R with (5 * (PI / 4))%R by lra.
  rewrite sin_5PI4.
  pose proof (sqrt_lt_R0 2 ltac:(lra)) as Hpos.
  pose proof (sqrt_sqrt 2 ltac:(lra)) as Hsq.
  set (s := sqrt 2) in *.
  assert (Hs : (141 / 100 < s < 142 / 100)%R) by (split; nra).
  assert (Hinv : (-1 / s * s = -1)%R) by (field; lra).
  set (u := (-1 / s)%R) in *.
  split; nra.
Qed.

(** ** Instances on the sample inputs *)

Lemma ist_steady (lo hi : Z) : steady ist_offset 19800 lo hi.
Proof. intros u _. reflexivity. Defined.


Lemma sticky_fallback_witness :
  exists v w1,
    fetch ist_offset steady_clock calm_rng offline 2 CurrentWeather initial_world
    = Some (v, w1) /\
    use_demo w1 = true /\
    requests_sent w1 = 1%nat /\
    run_calls ist_offset steady_clock calm_rng offline 2
              [Forecast; CurrentWeather] w1
    = Some (synthesize_all ist_offset steady_clock calm_rng
                           [Forecast; CurrentWeather] w1).
Proof.
  destruct (sticky_fallback ist_offset steady_clock calm_rng offline CurrentWeather
              initial_world 0 eq_refl eq_refl)
    as (v & w1 & Hfetch & _ & Hflag & Hsent & Hrest).
  exists v, w1. split; [exact Hfetch |]. split; [exact Hflag |].
  split; [exact Hsent |].
  exact (proj1 (Hrest [Forecast; CurrentWeather] 1%nat)).
Defined.



Lemma absent_forecast_returns_none_witness :
  process_forecast_data ist_offset JNull = Return None /\
  exists w,
    create_dashboard ist_offset steady_clock calm_rng null_forecast no_panels
                     2 initial_world
    = Some (Return None, w) /\
    saved w = [].
Proof.
  destruct (absent_forecast_returns_none ist_offset steady_clock calm_rng
              null_forecast no_panels JNull eq_refl)
    as [Hnone Hguard].
  split; [exact Hnone |].
  destruct (Hguard 2%nat initial_world demo_current _ _ eq_refl eq_refl)
    as [Hcd Hsaved].
  eexists. split; [exact Hcd | exact Hsaved].
Defined.

Lemma synthesized_integers_truncate_witness :
  exists h p,
    let pts := forecast_points
                 (snd (fst (generate_demo_data ist_offset steady_clock calm_rng
                                               demo_world))) in
    point_humidity (nth 0 pts JNull) = Some h /\
    point_pressure (nth 0 pts JNull) = Some p /\
    (IZR h <= humidity_signal 0 (3 / 4) < IZR h + 1)%R /\
    (IZR p <= pressure_signal 0 < IZR p + 1)%R.
Proof.
  assert (Hn : (-5 <= humidity_noise (calm_rng (rng_used demo_world + 0)) < 5)%R)
    by (simpl; lra).
  destruct (synthesized_integers_truncate ist_offset steady_clock calm_rng
              demo_world 0 ltac:(repeat constructor) Hn)
    as (h & p & Hh & Hp & _ & _ & Bh & Bp).
  exists h, p. cbv zeta.
  split; [exact Hh |]. split; [exact Hp |]. split; [exact Bh | exact Bp].
Defined.

(** Rounding to the nearest integer is not what the code does: with noise
    3/4 the humidity expression of point 0 is 60.75, stored as 60 where
    rounding gives 61; the pressure expression of point 25 is about 1002.93,
    stored as 1002 where rounding gives 1003. *)
Lemma rounding_claim_fails :
  let pts := forecast_points
               (snd (fst (generate_demo_data ist_offset steady_clock calm_rng
                                             demo_world))) in
  let noise := humidity_noise (calm_rng 0) in
  (-5 < noise < 5)%R /\
  point_humidity (nth 0 pts JNull) = Some 60%Z /\
  py_round (humidity_signal 0 noise) = 61%Z /\
  point_humidity (nth 0 pts JNull) <> Some (py_round (humidity_signal 0 noise)) /\
  point_pressure (nth 25 pts JNull) = Some 1002%Z /\
  py_round (pressure_signal 25) = 1003%Z /\
  point_pressure (nth 25 pts JNull) <> Some (py_round (pressure_signal 25)).
Proof.
  intros pts noise. subst pts noise.
  rewrite demo_forecast_points.
  rewrite !nth_forecast_list by (repeat constructor).
  rewrite demo_point_humidity, demo_point_pressure.
  change (humidity_noise (calm_rng _)) with (3 / 4)%R.
  assert (Hh : py_int (humidity_signal 0 (3 / 4)) = 60%Z).
  { rewrite humidity_signal_0. apply py_int_unique; [| split]; lra. }
  assert (Rh : py_round (humidity_signal 0 (3 / 4)) = 61%Z).
  { rewrite humidity_signal_0. apply py_round_unique_up. split; lra. }
  pose proof pressure_signal_25 as Hb.
  assert (Hp : py_int (pressure_signal 25) = 1002%Z).
  { apply py_int_unique; [| split]; lra. }
  assert (Rp : py_round (pressure_signal 25) = 1003%Z).
  { apply py_round_unique_up. split; lra. }
  rewrite Hh, Rh, Hp, Rp.
  repeat split; try lra; discriminate.
Qed.

Lemma synthesized_ranges_witness :
  let pts := forecast_points
               (snd (fst (generate_demo_data ist_offset steady_clock calm_rng
                                             demo_world))) in
  List.length (filter (within 0 100 point_humidity) pts) = List.length pts /\
  List.length (filter (within 990 1030 point_pressure) pts) = List.length pts.
Proof.
  assert (Hr : forall k, draws_in_range (calm_rng k)).
  { intros k. unfold draws_in_range. simpl. lra. }
  destruct (synthesized_ranges ist_offset steady_clock calm_rng demo_world Hr)
    as (_ & Hh & Hp & _).
  split; [exact Hh | exact Hp].
Defined.

Lemma daily_stats_grouping_witness :
  exists out,
    daily_stats sample_table = Some out /\
    map ds_date out = [19723; 19724]%Z /\
    forall s, In s out -> (min_temp s <= mean_temp s <= max_temp s)%R.
Proof.
  destruct (daily_stats_grouping sample_table
              [(19723%Z, 18.5%R); (19723%Z, 19%R); (19724%Z, 17%R)]
              ltac:(discriminate) eq_refl)
    as (out & Hout & _ & _ & _ & Hrows).
  exists out. split; [exact Hout |]. split.
  - unfold daily_stats in Hout. simpl in Hout. injection Hout as <-.
    reflexivity.
  - intros s Hs. exact (proj2 (proj2 (proj2 (proj2 (proj2 (proj2 (Hrows s Hs))))))).
Defined.

Lemma daily_stats_regrouping_witness :
  exists out,
    daily_stats one_per_day = Some out /\
    List.length out = 2%nat /\
    regroup mean_temp out = out.
Proof.
  assert (Hnd : NoDup (map (fun r => date_of (row_datetime r)) one_per_day)).
  { change (NoDup [19723; 19724]%Z).
    constructor; [intros [H | []]; discriminate H |].
    constructor; [intros [] | constructor]. }
  destruct (daily_stats_regrouping one_per_day
              [(19723%Z, 18.5%R); (19724%Z, 17%R)] eq_refl Hnd)
    as (out & Hout & Hlen & _ & _ & Hre & _).
  exists out. split; [exact Hout |]. split; [exact Hlen | exact Hre].
Defined.

(** ** Instances of the further properties *)

Lemma calm_draws_in_range (k : nat) : draws_in_range (calm_rng k).
Proof. unfold draws_in_range. simpl. lra. Defined.

Lemma synthesized_float_ranges_witness :
  exists t : R,
    point_temp
      (nth 3 (forecast_points
                (snd (fst (generate_demo_data ist_offset steady_clock calm_rng
                                              demo_world)))) JNull)
    = Some t /\ (11 <= t <= 25)%R.
Proof.
  destruct (synthesized_float_ranges ist_offset steady_clock calm_rng
              demo_world 3 ltac:(repeat constructor) (calm_draws_in_range _))
    as (t & f & v & Ht & _ & _ & Bt & _).
  exists t. split; [exact Ht | exact Bt].
Defined.

Lemma feels_like_near_temperature_witness :
  exists t f : R,
    point_feels_like
      (nth 3 (forecast_points
                (snd (fst (generate_demo_data ist_offset steady_clock calm_rng
                                              demo_world)))) JNull)
    = Some f /\ (t - 1.6 <= f <= t - 1.4)%R.
Proof.
  destruct (feels_like_near_temperature ist_offset steady_clock calm_rng
              demo_world 3 ltac:(repeat constructor))
    as (t & f & _ & Hf & B & _).
  exists t, f. split; [exact Hf | exact B].
Defined.

Lemma truncation_within_one_of_rounding_witness :
  exists h : Z,
    point_humidity
      (nth 0 (forecast_points
                (snd (fst (generate_demo_data ist_offset steady_clock calm_rng
                                              demo_world)))) JNull)
    = Some h /\
    (py_round (humidity_signal 0 (3 / 4)) - 1 <= h
     <= py_round (humidity_signal 0 (3 / 4)))%Z.
Proof.
  assert (Hn : (-5 <= humidity_noise (calm_rng (rng_used demo_world + 0)) < 5)%R)
    by (simpl; lra).
  destruct (truncation_within_one_of_rounding ist_offset steady_clock calm_rng
              demo_world 0 ltac:(repeat constructor) Hn)
    as (h & p & Hh & _ & Bh & _).
  exists h. split; [exact Hh | exact Bh].
Defined.

Lemma dt_round_trip_witness :
  fromtimestamp ist_offset (JInt 1704047400) = Return new_year_2024 /\
  py_int (timestamp ist_offset new_year_2024) = 1704047400%Z.
Proof.
  destruct (dt_round_trip ist_offset 1704047400 19800
              ltac:(discriminate) (ist_steady _ _) eq_refl)
    as (Hdec & Henc & _).
  split; [exact Hdec | exact Henc].
Defined.

Lemma live_fetch_returns_response_witness :
  exists w1,
    fetch ist_offset steady_clock calm_rng null_forecast 1 CurrentWeather
          initial_world
    = Some (demo_current, w1) /\
    use_demo w1 = false.
Proof.
  destruct (live_fetch_returns_response ist_offset steady_clock calm_rng
              null_forecast CurrentWeather initial_world 0 demo_current
              eq_refl eq_refl)
    as (w1 & Hfetch & Hflag & _).
  exists w1. split; [exact Hfetch | exact Hflag].
Defined.

Lemma fetch_sends_at_most_one_request_witness :
  exists v w1,
    fetch ist_offset steady_clock calm_rng offline 2 Forecast initial_world
    = Some (v, w1) /\
    requests_sent w1 = 1%nat.
Proof.
  eexists. eexists. split; [reflexivity |].
  exact (fetch_sends_at_most_one_request ist_offset steady_clock calm_rng
           offline 2 Forecast initial_world _ _ eq_refl).
Defined.

Lemma fetch_flag_after_witness :
  exists v w1,
    fetch ist_offset steady_clock calm_rng offline 2 Forecast initial_world
    = Some (v, w1) /\
    use_demo w1 = true.
Proof.
  eexists. eexists. split; [reflexivity |].
  exact (fetch_flag_after ist_offset steady_clock calm_rng
           offline 2 Forecast initial_world _ _ eq_refl).
Defined.

Lemma demo_mode_generates_twice_witness :
  exists w1 w2 forecast,
    fetch_current_weather ist_offset steady_clock calm_rng offline 1 demo_world
    = Some (demo_current, w1) /\
    fetch_forecast ist_offset steady_clock calm_rng offline 1 w1
    = Some (forecast, w2) /\
    rng_used w2 = 80%nat.
Proof.
  destruct (demo_mode_generates_twice ist_offset steady_clock calm_rng offline
              demo_world 0 eq_refl)
    as (w1 & w2 & H1 & H2 & _ & Hr & _).
  exists w1, w2. eexists. split; [exact H1 |]. split; [exact H2 | exact Hr].
Defined.


Lemma forecast_without_list_witness :
  process_forecast_data ist_offset no_list_record = Raise (KeyError "list").
Proof.
  exact (forecast_without_list ist_offset no_list_record eq_refl eq_refl).
Defined.

Lemma empty_list_gives_empty_table_witness :
  process_forecast_data ist_offset (JDict [("list", JList [])])
  = Return (Some []) /\
  exists w2,
    create_dashboard ist_offset steady_clock calm_rng empty_forecast no_panels
                     1 initial_world
    = Some (Return (Some []), savefig w2).
Proof.
  destruct (empty_list_gives_empty_table ist_offset steady_clock calm_rng
              empty_forecast no_panels (JDict [("list", JList [])])
              demo_current 1 initial_world _ _ eq_refl eq_refl eq_refl eq_refl)
    as (Hp & _ & Hcd).
  split; [exact Hp |]. eexists. exact Hcd.
Defined.

Lemma first_bad_point_decides_witness :
  process_forecast_data ist_offset broken_forecast = Raise IndexError.
Proof.
  exact (first_bad_point_decides ist_offset broken_forecast
           [sample_point 1704047400 18.5 [cloudy]]
           (sample_point 1704058200 19 []) [] _ IndexError
           eq_refl eq_refl eq_refl).
Defined.

Lemma demo_dashboard_witness :
  exists rows w2,
    create_dashboard ist_offset steady_clock calm_rng offline no_panels
                     1 demo_world
    = Some (Return (Some rows), savefig w2) /\
    List.length rows = 40%nat /\
    requests_sent w2 = 0%nat.
Proof.
  destruct (demo_dashboard ist_offset steady_clock calm_rng offline no_panels
              demo_world 0 eq_refl)
    as (w2 & Hcd & Hlen & Hreq & _).
  eexists. exists w2. split; [exact Hcd |]. split; [exact Hlen | exact Hreq].
Defined.

Lemma live_current_with_synthesized_forecast_witness :
  exists rows w2,
    create_dashboard ist_offset steady_clock calm_rng forecast_down no_panels
                     2 initial_world
    = Some (Return (Some rows), savefig w2) /\
    use_demo w2 = true /\
    requests_sent w2 = 2%nat.
Proof.
  destruct (live_current_with_synthesized_forecast ist_offset steady_clock
              calm_rng forecast_down no_panels initial_world 0 demo_current
              eq_refl eq_refl eq_refl eq_refl)
    as (rows & w2 & Hcd & _ & Hflag & Hreq & _).
  exists rows, w2. split; [exact Hcd |]. split; [exact Hflag | exact Hreq].
Defined.

Lemma dashboard_saves_only_on_success_witness :
  exists w',
    create_dashboard ist_offset steady_clock calm_rng null_forecast no_panels
                     2 initial_world
    = Some (Return None, w') /\
    saved w' = [].
Proof.
  eexists. split; [reflexivity |].
  exact (dashboard_saves_only_on_success ist_offset steady_clock calm_rng
           null_forecast no_panels 2 initial_world _ (Return None) eq_refl).
Defined.

Lemma absent_current_returns_none_witness :
  exists w',
    create_dashboard ist_offset steady_clock calm_rng empty_current no_panels
                     1 initial_world
    = Some (Return None, w') /\
    saved w' = [].
Proof.
  destruct (absent_current_returns_none ist_offset steady_clock calm_rng
              empty_current no_panels (JDict []) sample_forecast 1
              initial_world _ _ eq_refl eq_refl eq_refl)
    as [Hcd Hsaved].
  eexists. split; [exact Hcd | exact Hsaved].
Defined.

Lemma offline_run_witness :
  exists w,
    main ist_offset steady_clock calm_rng offline no_panels 2
    = Some (Return tt, w) /\
    requests_sent w = 1%nat /\
    saved w = [demo_filename].
Proof.
  destruct (offline_run ist_offset steady_clock calm_rng offline no_panels 0
              eq_refl eq_refl)
    as (w & Hmain & _ & Hreq & Hsaved).
  exists w. split; [exact Hmain |]. split; [exact Hreq | exact Hsaved].
Defined.

Lemma daily_groups_partition_rows_witness :
  exists out,
    daily_stats sample_table = Some out /\
    list_sum (map (fun s =>
                     List.length
                       (group_values (ds_date s)
                          [(19723%Z, 18.5%R); (19723%Z, 19%R); (19724%Z, 17%R)]))
                  out)
    = 3%nat.
Proof.
  exact (daily_groups_partition_rows sample_table
           [(19723%Z, 18.5%R); (19723%Z, 19%R); (19724%Z, 17%R)] eq_refl).
Defined.

Lemma daily_extremes_attained_witness :
  exists out,
    daily_stats sample_table = Some out /\
    forall s, In s out ->
      In (ds_date s, min_temp s)
         [(19723%Z, 18.5%R); (19723%Z, 19%R); (19724%Z, 17%R)].
Proof.
  destruct (daily_extremes_attained sample_table
              [(19723%Z, 18.5%R); (19723%Z, 19%R); (19724%Z, 17%R)] eq_refl)
    as (out & Hout & Hrows).
  exists out. split; [exact Hout |].
  intros s Hs. exact (proj1 (Hrows s Hs)).
Defined.

Lemma synthesized_forecast_days_witness :
  exists rows out,
    process_forecast_data ist_offset
      (snd (fst (generate_demo_data ist_offset steady_clock calm_rng demo_world)))
    = Return (Some rows) /\
    daily_stats rows = Some out /\
    (5 <= List.length out <= 6)%nat.
Proof.
  exact (synthesized_forecast_days ist_offset steady_clock calm_rng demo_world
           19800 ltac:(discriminate) (ist_steady _ _)).
Defined.

(** ** Counterexamples *)




(** The binary64 mean of a day can exceed the day's maximum: for three
    readings of 11.3 the sum rounds up, and the mean comes out one unit in
    the last place above 11.3, with the compensated and the plain sum
    alike. *)
Lemma float_mean_exceeds_max :
  exists row,
    groupby_agg64 three_equal_readings = [row] /\
    min_temp64 row = eleven_point_three /\
    max_temp64 row = eleven_point_three /\
    mean_temp64 row = 0x1.699999999999bp+3%float /\
    PrimFloat.leb (mean_temp64 row) (max_temp64 row) = false /\
    PrimFloat.ltb (max_temp64 row) (mean_temp64 row) = true /\
    PrimFloat.ltb eleven_point_three
      (f64_plain_mean (group_values64 19723 three_equal_readings)) = true.
Proof.
  eexists. split; [vm_compute; reflexivity |].
  repeat split; vm_compute; reflexivity.
Qed.
